(** * reviewer/views.py: the response normalizer and the review view

    A shallow embedding of [parse_ai_response] and [home] from
    [reviewer/views.py], with the Python values, strings and exceptions
    they manipulate, followed by the properties of the two functions. *)

From Stdlib Require Import ZArith NArith List Ascii String DecimalString Lia.
From stdpp Require Import base option list gmap.

Set Warnings "-register-all".
Local Open Scope N_scope.

(** ** Python strings

    A Python [str] is a sequence of Unicode code points; a code point is
    kept as an [N].  [list N] is written out in types (as [pystr]) rather
    than hidden behind a definition. *)

Abbreviation pystr := (list N) (only parsing).

(** [py "abc"] is the Python literal ['abc'], for ASCII text. *)
Definition py (s : string) : pystr :=
  List.map N_of_ascii (list_ascii_of_string s).

(** U+0022, the double quote, and U+274C, the cross mark of the view's
    messages. *)
Definition dquote : N := 34.
Definition cross_mark : N := 10060.

(** [pyq] is [py] with the apostrophe read as a double quote, to write
    JSON texts as literals: [pyq "{'a': 1}"] is the text [{"a": 1}]. *)
Definition pyq (s : string) : pystr :=
  List.map (fun c => if c =? 39 then dquote else c) (py s).

Definition ch (a : ascii) : N := N_of_ascii a.

(** [str(n)] for a natural number. *)
Definition str_of_nat (n : nat) : pystr :=
  py (NilEmpty.string_of_uint (Nat.to_uint n)).

(** [c.isspace()], the test [str.strip] applies to each end: the code
    points CPython lists in [_PyUnicode_IsWhitespace]. *)
Definition isspace (c : N) : bool :=
  ((9 <=? c) && (c <=? 13)) || ((28 <=? c) && (c <=? 32))
  || (c =? 133) || (c =? 160) || (c =? 5760)
  || ((8192 <=? c) && (c <=? 8202))
  || (c =? 8232) || (c =? 8233) || (c =? 8239) || (c =? 8287)
  || (c =? 12288).

Fixpoint lstrip (s : list N) : list N :=
  match s with
  | c :: s' => if isspace c then lstrip s' else s
  | [] => []
  end.

Definition rstrip (s : list N) : list N := rev (lstrip (rev s)).

(** [s.strip()] *)
Definition strip (s : list N) : list N := rstrip (lstrip s).

(** [s.startswith(p)] *)
Fixpoint startswith (s p : list N) {struct p} : bool :=
  match p, s with
  | [], _ => true
  | a :: p', b :: s' => (a =? b) && startswith s' p'
  | _ :: _, [] => false
  end.

(** [s[a:-b]] for literal [a >= 0] and [b > 0]: the slice from index [a]
    to [len(s) - b], empty when the bounds cross. *)
Definition slice_to_neg (s : list N) (a b : nat) : list N :=
  drop a (take (length s - b) s).

(** [sub in s] on two strings: [sub] occurs in [s] as a substring. *)
Fixpoint str_contains (s sub : list N) : bool :=
  startswith s sub ||
  match s with
  | [] => false
  | _ :: s' => str_contains s' sub
  end.

(** ** Python values

    The values [json.loads] builds, which are also the values the view
    puts in its context.  A [float] is kept as the decimal numeral it was
    read from ([m * 10^e]) or as one of the three constants; the program
    never computes with one, it only tests it for truth. *)

Inductive pyfloat :=
| FDec (m e : Z)
| FNaN
| FInf (negative : bool).

Inductive value :=
| VNone
| VBool (b : bool)
| VInt (z : Z)
| VFloat (f : pyfloat)
| VStr (s : list N)
| VList (l : list value)
| VDict (d : gmap (list N) value).

(** [type(v).__name__] *)
Definition type_name (v : value) : list N :=
  match v with
  | VNone => py "NoneType"
  | VBool _ => py "bool"
  | VInt _ => py "int"
  | VFloat _ => py "float"
  | VStr _ => py "str"
  | VList _ => py "list"
  | VDict _ => py "dict"
  end.

(** A decimal [m * 10^e] is read as [0.0] when [m] is zero or when it
    lies at or below half the least positive double, [2^-1075]. *)
Definition float_is_zero (f : pyfloat) : bool :=
  match f with
  | FDec m e =>
      ((m =? 0) || ((e <? 0) && (Z.abs m * 2 ^ 1075 <=? 10 ^ (- e))))%Z
  | FNaN | FInf _ => false
  end.

(** [bool(v)] *)
Definition truthy (v : value) : bool :=
  match v with
  | VNone => false
  | VBool b => b
  | VInt z => negb (z =? 0)%Z
  | VFloat f => negb (float_is_zero f)
  | VStr s => negb (bool_decide (s = []))
  | VList l => negb (bool_decide (l = []))
  | VDict d => negb (bool_decide (d = ∅))
  end.

(** ** Exceptions

    The exceptions of the model are the ones deriving from [Exception],
    which is what the handlers of the program catch; [str_e] is [str(e)].
    [json.JSONDecodeError] is the only class a handler tells apart. *)

Inductive exn_class :=
| JSONDecodeError
| TypeError
| AttributeError
| IndexError
| RecursionError
| OtherException (name : list N).

Record exn := Exn { class_of : exn_class; str_e : list N }.

(** A computation that returns or raises. *)
Inductive outcome (A : Type) :=
| Return (a : A)
| Raise (e : exn).
Arguments Return {A} a.
Arguments Raise {A} e.

#[global] Instance outcome_ret : MRet outcome := @Return.
#[global] Instance outcome_bind : MBind outcome := fun A B k c =>
  match c with
  | Return a => k a
  | Raise e => Raise e
  end.

Definition is_json_decode_error (e : exn) : bool :=
  match class_of e with
  | JSONDecodeError => true
  | _ => false
  end.

(** ** The operators the program applies to a decoded value

    [key in v], [v[key] = x] and [v[key]] for a string [key], with the
    exception CPython raises where the type of [v] does not support the
    operation (the messages are those of CPython 3.12). *)

(** [x == s] for a string [s]: only a string equals a string. *)
Definition eq_str (x : value) (s : list N) : bool :=
  match x with
  | VStr t => bool_decide (t = s)
  | _ => false
  end.

Definition py_in (key : list N) (v : value) : outcome bool :=
  match v with
  | VDict d => Return (bool_decide (is_Some (d !! key)))
  | VList l => Return (existsb (fun x => eq_str x key) l)
  | VStr s => Return (str_contains s key)
  | _ => Raise (Exn TypeError
             (py "argument of type '" ++ type_name v ++ py "' is not iterable"))
  end.

Definition py_setitem (v : value) (key : list N) (x : value) : outcome value :=
  match v with
  | VDict d => Return (VDict (<[key := x]> d))
  | VList _ => Raise (Exn TypeError
                 (py "list indices must be integers or slices, not str"))
  | _ => Raise (Exn TypeError
           (py "'" ++ type_name v ++ py "' object does not support item assignment"))
  end.

Definition py_getitem (v : value) (key : list N) : outcome value :=
  match v with
  | VDict d =>
      match d !! key with
      | Some x => Return x
      | None => Raise (Exn (OtherException (py "KeyError"))
                  (py "'" ++ key ++ py "'"))
      end
  | VList _ => Raise (Exn TypeError
                 (py "list indices must be integers or slices, not str"))
  | VStr _ => Raise (Exn TypeError
                (py "string indices must be integers, not 'str'"))
  | _ => Raise (Exn TypeError
           (py "'" ++ type_name v ++ py "' object is not subscriptable"))
  end.

(** ** json.loads

    A decoder for the texts [json.loads] accepts, after CPython 3.12's
    scanner: JSON whitespace, the three literals and the three float
    constants, numbers, strings with their escapes (strict mode), arrays
    and objects (of two equal keys the later wins).  A failure is a
    [JSONDecodeError] with CPython's message and position.  CPython's
    resource limits (the digit limit of [int], the interpreter's stack)
    are not modelled: the decoder would give up with [RecursionError]
    only if its own fuel, twice the length of the text, ran out, which
    it never does ([loads_returns_or_decode_error]).

    The properties of [parse_ai_response] and [home] below are proved
    for any [json.loads]; this decoder is the one they are evaluated
    with. *)

Module JSON.

Inductive scan (A : Type) :=
| Scanned (a : A) (rest : list N) (pos : nat)
| Failed (msg : list N) (pos : nat)
| TooDeep.
Arguments Scanned {A} a rest pos.
Arguments Failed {A} msg pos.
Arguments TooDeep {A}.

Definition is_ws (c : N) : bool :=
  (c =? 32) || (c =? 9) || (c =? 10) || (c =? 13).

Fixpoint skip_ws (s : list N) (pos : nat) : list N * nat :=
  match s with
  | c :: s' => if is_ws c then skip_ws s' (S pos) else (s, pos)
  | [] => ([], pos)
  end.

Definition is_digit (c : N) : bool := (48 <=? c) && (c <=? 57).

Definition hex_digit (c : N) : option N :=
  if is_digit c then Some (c - 48)
  else if (65 <=? c) && (c <=? 70) then Some (c - 55)
  else if (97 <=? c) && (c <=? 102) then Some (c - 87)
  else None.

Definition hex4 (s : list N) : option N :=
  match s with
  | a :: b :: c :: d :: _ =>
      match hex_digit a, hex_digit b, hex_digit c, hex_digit d with
      | Some a, Some b, Some c, Some d => Some (((a * 16 + b) * 16 + c) * 16 + d)
      | _, _, _, _ => None
      end
  | _ => None
  end.

(** The character a backslash escape other than [\u] stands for. *)
Definition unescape (c : N) : option N :=
  if c =? dquote then Some dquote
  else if c =? 92 then Some 92
  else if c =? ch "/" then Some (ch "/")
  else if c =? ch "b" then Some 8
  else if c =? ch "f" then Some 12
  else if c =? ch "n" then Some 10
  else if c =? ch "r" then Some 13
  else if c =? ch "t" then Some 9
  else None.

Definition is_high_surrogate (c : N) : bool := (55296 <=? c) && (c <=? 56319).
Definition is_low_surrogate (c : N) : bool := (56320 <=? c) && (c <=? 57343).
Definition join_surrogates (hi lo : N) : N :=
  65536 + ((hi - 55296) * 1024 + (lo - 56320)).

(** The body of a string, from just after its opening quote at
    [begin]; [acc] holds the characters read so far, last first. *)
Fixpoint scanstring (fuel begin : nat) (acc s : list N) (pos : nat)
  : scan (list N) :=
  match fuel with
  | O => TooDeep
  | S fuel =>
      match s with
      | [] => Failed (py "Unterminated string starting at") begin
      | c :: s1 =>
          if c =? dquote then Scanned (rev acc) s1 (S pos)
          else if c =? 92 then
            match s1 with
            | [] => Failed (py "Unterminated string starting at") begin
            | e :: s2 =>
                if e =? ch "u" then
                  if (length s2 <=? 4)%nat
                  then Failed (py "Invalid \uXXXX escape") (pos + 1)
                  else
                    match hex4 s2 with
                    | None => Failed (py "Invalid \uXXXX escape") (pos + 1)
                    | Some c1 =>
                        let s3 := drop 4 s2 in
                        if is_high_surrogate c1 && (6 <? length s3)%nat
                           && startswith s3 [92; ch "u"]
                        then
                          match hex4 (drop 2 s3) with
                          | None =>
                              Failed (py "Invalid \uXXXX escape") (pos + 7)
                          | Some c2 =>
                              if is_low_surrogate c2
                              then scanstring fuel begin
                                     (join_surrogates c1 c2 :: acc)
                                     (drop 6 s3) (pos + 12)
                              else scanstring fuel begin (c1 :: acc) s3 (pos + 6)
                          end
                        else scanstring fuel begin (c1 :: acc) s3 (pos + 6)
                    end
                else
                  match unescape e with
                  | Some c' => scanstring fuel begin (c' :: acc) s2 (pos + 2)
                  | None => Failed (py "Invalid \escape") pos
                  end
            end
          else if c <=? 31 then Failed (py "Invalid control character at") pos
          else scanstring fuel begin (c :: acc) s1 (S pos)
      end
  end.

(** The longest run of decimal digits at the head of [s], and the rest. *)
Fixpoint digits (s : list N) : list N * list N :=
  match s with
  | c :: s' =>
      if is_digit c then let '(ds, r) := digits s' in (c :: ds, r)
      else ([], s)
  | [] => ([], [])
  end.

Definition Z_of_digits (ds : list N) : Z :=
  fold_left (fun a c => (a * 10 + Z.of_N (c - 48))%Z) ds 0%Z.

(** The parts of a number: an optional minus sign, then [0] or a run
    of digits not starting with [0], then optionally a dot with at
    least one digit, then optionally [e] or [E] with an optional sign
    and at least one digit.  Each part is returned with the text behind
    it; an optional part that does not match takes nothing. *)
Definition number_sign (s : list N) : bool * list N :=
  match s with
  | c :: s' => if c =? ch "-" then (true, s') else (false, s)
  | [] => (false, s)
  end.

Definition number_int (s : list N) : list N * list N :=
  match s with
  | c :: s' =>
      if c =? ch "0" then ([c], s')
      else if is_digit c then digits s
      else ([], s)
  | [] => ([], s)
  end.

Definition number_frac (s : list N) : list N * list N :=
  match s with
  | c :: s' =>
      if c =? ch "." then
        match digits s' with
        | ([], _) => ([], s)
        | (ds, r) => (ds, r)
        end
      else ([], s)
  | [] => ([], s)
  end.

Definition number_exp (s : list N) : option Z * list N :=
  match s with
  | c :: s' =>
      if (c =? ch "e") || (c =? ch "E") then
        let '(negative, s'') :=
          match s' with
          | d :: r =>
              if d =? ch "-" then (true, r)
              else if d =? ch "+" then (false, r)
              else (false, s')
          | [] => (false, s')
          end in
        match digits s'' with
        | ([], _) => (None, s)
        | (ds, r) =>
            (Some (if negative then (- Z_of_digits ds)%Z else Z_of_digits ds),
             r)
        end
      else (None, s)
  | [] => (None, s)
  end.

(** A number at [pos]: without fraction and exponent it is an [int],
    else a [float]. *)
Definition match_number (s : list N) (pos : nat) : scan value :=
  let '(negative, s1) := number_sign s in
  let '(int_ds, s2) := number_int s1 in
  match int_ds with
  | [] => Failed (py "Expecting value") pos
  | _ :: _ =>
      let '(frac_ds, s3) := number_frac s2 in
      let '(exp, s4) := number_exp s3 in
      let sign (z : Z) := if negative then (- z)%Z else z in
      let v :=
        match frac_ds, exp with
        | [], None => VInt (sign (Z_of_digits int_ds))
        | _, _ =>
            VFloat (FDec (sign (Z_of_digits (int_ds ++ frac_ds)))
                      (default 0%Z exp - Z.of_nat (length frac_ds)))
        end in
      Scanned v s4 (pos + (length s - length s4))
  end.

Definition literal (s : list N) (pos : nat) : option (scan value) :=
  let lit (word : list N) (v : value) :=
    Some (Scanned v (drop (length word) s) (pos + length word)) in
  if startswith s (py "null") then lit (py "null") VNone
  else if startswith s (py "true") then lit (py "true") (VBool true)
  else if startswith s (py "false") then lit (py "false") (VBool false)
  else if startswith s (py "NaN") then lit (py "NaN") (VFloat FNaN)
  else if startswith s (py "Infinity")
       then lit (py "Infinity") (VFloat (FInf false))
  else if startswith s (py "-Infinity")
       then lit (py "-Infinity") (VFloat (FInf true))
  else None.

(** [scan_once] reads one JSON term at [pos]; [object_loop] reads the
    members of an object from a key on, and [array_loop] the elements of
    an array from a value on. *)
Fixpoint scan_once (fuel : nat) (s : list N) (pos : nat) : scan value :=
  match fuel with
  | O => TooDeep
  | S fuel =>
      match s with
      | [] => Failed (py "Expecting value") pos
      | c :: s1 =>
          if c =? dquote then
            match scanstring (length s) pos [] s1 (S pos) with
            | Scanned str r p => Scanned (VStr str) r p
            | Failed msg p => Failed msg p
            | TooDeep => TooDeep
            end
          else if c =? ch "{" then
            let '(s2, p2) := skip_ws s1 (S pos) in
            match s2 with
            | d :: s3 =>
                if d =? ch "}" then Scanned (VDict ∅) s3 (S p2)
                else object_loop fuel ∅ s2 p2
            | [] => object_loop fuel ∅ s2 p2
            end
          else if c =? ch "[" then
            let '(s2, p2) := skip_ws s1 (S pos) in
            match s2 with
            | d :: s3 =>
                if d =? ch "]" then Scanned (VList []) s3 (S p2)
                else array_loop fuel [] s2 p2
            | [] => array_loop fuel [] s2 p2
            end
          else
            match literal s pos with
            | Some r => r
            | None => match_number s pos
            end
      end
  end
with object_loop (fuel : nat) (d : gmap (list N) value) (s : list N)
       (pos : nat) : scan value :=
  match fuel with
  | O => TooDeep
  | S fuel =>
      let no_key :=
        Failed (py "Expecting property name enclosed in double quotes") pos in
      match s with
      | [] => no_key
      | q :: s1 =>
          if negb (q =? dquote) then no_key
          else
            match scanstring (length s) pos [] s1 (S pos) with
            | Failed msg p => Failed msg p
            | TooDeep => TooDeep
            | Scanned key s2 p2 =>
                let '(s3, p3) := skip_ws s2 p2 in
                match s3 with
                | c :: s4 =>
                    if negb (c =? ch ":")
                    then Failed (py "Expecting ':' delimiter") p3
                    else
                      let '(s5, p5) := skip_ws s4 (S p3) in
                      match scan_once fuel s5 p5 with
                      | Failed msg p => Failed msg p
                      | TooDeep => TooDeep
                      | Scanned v s6 p6 =>
                          let d' := <[key := v]> d in
                          let '(s7, p7) := skip_ws s6 p6 in
                          match s7 with
                          | e :: s8 =>
                              if e =? ch "}" then Scanned (VDict d') s8 (S p7)
                              else if e =? ch "," then
                                let '(s9, p9) := skip_ws s8 (S p7) in
                                object_loop fuel d' s9 p9
                              else Failed (py "Expecting ',' delimiter") p7
                          | [] => Failed (py "Expecting ',' delimiter") p7
                          end
                      end
                | [] => Failed (py "Expecting ':' delimiter") p3
                end
            end
      end
  end
with array_loop (fuel : nat) (acc : list value) (s : list N) (pos : nat)
  : scan value :=
  match fuel with
  | O => TooDeep
  | S fuel =>
      match scan_once fuel s pos with
      | Failed msg p => Failed msg p
      | TooDeep => TooDeep
      | Scanned v s1 p1 =>
          let acc' := acc ++ [v] in
          let '(s2, p2) := skip_ws s1 p1 in
          match s2 with
          | e :: s3 =>
              if e =? ch "]" then Scanned (VList acc') s3 (S p2)
              else if e =? ch "," then
                let '(s4, p4) := skip_ws s3 (S p2) in
                array_loop fuel acc' s4 p4
              else Failed (py "Expecting ',' delimiter") p2
          | [] => Failed (py "Expecting ',' delimiter") p2
          end
      end
  end.

(** The characters of [s] before its first line feed. *)
Fixpoint first_line (s : list N) : list N :=
  match s with
  | c :: s' => if c =? 10 then [] else c :: first_line s'
  | [] => []
  end.

(** [str(e)] of [JSONDecodeError(msg, doc, pos)]: the message followed
    by the line, column and index of [pos] in [doc]. *)
Definition errmsg (msg doc : list N) (pos : nat) : list N :=
  let before := take pos doc in
  let lineno := S (length (List.filter (fun c => c =? 10) before)) in
  let colno := S (length (first_line (rev before))) in
  msg ++ py ": line " ++ str_of_nat lineno ++ py " column "
      ++ str_of_nat colno ++ py " (char " ++ str_of_nat pos ++ py ")".

Definition decode_error {A} (msg doc : list N) (pos : nat) : outcome A :=
  Raise (Exn JSONDecodeError (errmsg msg doc pos)).

(** [json.loads(s)] for a [str] *)
Definition loads (s : list N) : outcome value :=
  if startswith s [65279]
  then decode_error (py "Unexpected UTF-8 BOM (decode using utf-8-sig)") s 0
  else
    let '(s1, p1) := skip_ws s 0 in
    match scan_once (2 * length s + 2) s1 p1 with
    | Scanned v s2 p2 =>
        let '(s3, p3) := skip_ws s2 p2 in
        match s3 with
        | [] => Return v
        | _ :: _ => decode_error (py "Extra data") s p3
        end
    | Failed msg p => decode_error msg s p
    | TooDeep =>
        Raise (Exn RecursionError (py "maximum recursion depth exceeded"))
    end.

End JSON.

(** ** reviewer/views.py *)

(** The keys of a result, in the order of the source. *)
Definition expected_keys : list (list N) :=
  [py "syntax_errors"; py "logical_errors"; py "key_improvements";
   py "fixed_code"; py "explanation"].

(** A dict display [{k1: v1, ...}] with distinct keys. *)
Definition dict (items : list (list N * value)) : value :=
  VDict (list_to_map items).

(** [ai_output.strip()]: only a [str] has the method. *)
Definition py_strip (v : value) : outcome (list N) :=
  match v with
  | VStr s => Return (strip s)
  | _ => Raise (Exn AttributeError
           (py "'" ++ type_name v ++ py "' object has no attribute 'strip'"))
  end.

(** Lines 25-28: the removal of a code fence from the trimmed text. *)
Definition remove_code_block (content : list N) : list N :=
  if startswith content (py "```json")
  then strip (slice_to_neg content 7 3)
  else if startswith content (py "```")
  then strip (slice_to_neg content 3 3)
  else content.

(** [[] if "errors" in key or "improvements" in key else ""] *)
Definition default_of (key : list N) : value :=
  if str_contains key (py "errors") || str_contains key (py "improvements")
  then VList []
  else VStr [].

(** One turn of the loop of lines 35-37. *)
Definition fill_key (parsed_data : value) (key : list N) : outcome value :=
  present ← py_in key parsed_data;
  if negb present
  then py_setitem parsed_data key (default_of key)
  else Return parsed_data.

Fixpoint fill_keys (keys : list (list N)) (parsed_data : value)
  : outcome value :=
  match keys with
  | [] => Return parsed_data
  | key :: keys' =>
      parsed_data' ← fill_key parsed_data key;
      fill_keys keys' parsed_data'
  end.

(** The dict both handlers of [parse_ai_response] build, which is also
    the shape of the fallback result of [home]. *)
Definition error_result (error : list N) (raw : value) : value :=
  dict [(py "error", VStr error);
        (py "raw", raw);
        (py "syntax_errors", VList []);
        (py "logical_errors", VList []);
        (py "key_improvements", VList []);
        (py "fixed_code", VStr []);
        (py "explanation", VStr [])].

Section parse_ai_response.

(** [json.loads] applied to a [str]: it returns the decoded value or
    raises, [json.JSONDecodeError] on a text that is not JSON. *)
Variable json_loads : list N -> outcome value.

(** The body of the [try] statement, lines 22-39. *)
Definition parse_ai_response_try (ai_output : value) : outcome value :=
  content ← py_strip ai_output;
  let content := remove_code_block content in
  parsed_data ← json_loads content;
  fill_keys expected_keys parsed_data.

Definition parse_ai_response (ai_output : value) : value :=
  match parse_ai_response_try ai_output with
  | Return parsed_data => parsed_data
  | Raise e =>
      if is_json_decode_error e
      then error_result
             (py "Failed to parse AI response as JSON: " ++ str_e e) ai_output
      else error_result (py "Unexpected error: " ++ str_e e) ai_output
  end.

End parse_ai_response.

(** *** The view [home] *)

(** The completion service as the view uses it: the keyword arguments of
    [client.chat.completions.create], and of its answer the content of
    each choice's message (a [str] or [None]). *)
Record chat_request := {
  model : list N;
  messages : list (list N * list N);
  temperature : pyfloat;
  max_tokens : Z;
  top_p : pyfloat
}.

Record choice := { message_content : value }.
Record completion := { choices : list choice }.

(** A client answers a request or raises. *)
Record groq_client := { create : chat_request -> outcome completion }.

(** The module's globals, set when the module is loaded. *)
Record globals := {
  GROQ_API_KEY : option (list N);
  client : option groq_client
}.

(** Of a request the view reads the method and the form fields. *)
Record http_request := {
  method : list N;
  POST : gmap (list N) (list N)
}.

(** The context handed to the template. *)
Record view_context := {
  user_code : list N;
  ai_result : value;
  error : value;
  debug : value
}.

Definition set_user_code (c : view_context) (x : list N) : view_context :=
  {| user_code := x; ai_result := ai_result c; error := error c;
     debug := debug c |}.
Definition set_ai_result (c : view_context) (x : value) : view_context :=
  {| user_code := user_code c; ai_result := x; error := error c;
     debug := debug c |}.
Definition set_error (c : view_context) (x : value) : view_context :=
  {| user_code := user_code c; ai_result := ai_result c; error := x;
     debug := debug c |}.
Definition set_debug (c : view_context) (x : value) : view_context :=
  {| user_code := user_code c; ai_result := ai_result c; error := error c;
     debug := x |}.

(** The f-string of lines 84-104. *)
Definition prompt_of (user_code : list N) : list N :=
  py "You are an expert code reviewer. Analyze the following code and provide feedback in STRICT JSON format.

IMPORTANT: Return ONLY valid JSON with these exact keys:
- syntax_errors (array of strings)
- logical_errors (array of strings) 
- key_improvements (array of strings)
- fixed_code (string with corrected code)
- explanation (string with detailed explanation)

Code to review:

" ++ user_code ++ pyq "

Return JSON in this exact format (no additional text):
{
  'syntax_errors': ['error1', 'error2', ...],
  'logical_errors': ['error1', 'error2', ...],
  'key_improvements': ['improvement1', 'improvement2', ...],
  'fixed_code': 'corrected code here',
  'explanation': 'detailed explanation here'
}".

Definition system_message : list N :=
  py "You are an expert code reviewer specializing in Python, JavaScript, Java, C++, and other programming languages. Always return valid JSON format without any additional text or markdown formatting.".

Definition request_of (prompt : list N) : chat_request :=
  {| model := py "llama-3.3-70b-versatile";
     messages := [(py "system", system_message); (py "user", prompt)];
     temperature := FDec 1 (-1);
     max_tokens := 2000;
     top_p := FDec 9 (-1) |}.

(** [bool(x)] for a global that is [None] or a string. *)
Definition key_is_set (k : option (list N)) : bool :=
  match k with
  | Some (_ :: _) => true
  | _ => false
  end.

(** What one run of the view leaves behind: its context and the requests
    it has sent to the client, oldest first. *)
Record run := { ctx : view_context; calls : list chat_request }.

Section home.

Variable json_loads : list N -> outcome value.

(** [traceback.format_exc()] in the handler of an exception. *)
Variable format_exc : exn -> list N.

(** The body of the [try] statement, lines 83-131, from a context: the
    exception it ends with, if any, and the context and calls so far. *)
Definition home_try (cl : groq_client) (context : view_context)
  : option exn * run :=
  let prompt := prompt_of (user_code context) in
  let sent := [request_of prompt] in
  match create cl (request_of prompt) with
  | Raise e => (Some e, {| ctx := context; calls := sent |})
  | Return response =>
      match choices response with
      | [] => (Some (Exn IndexError (py "list index out of range")),
               {| ctx := context; calls := sent |})
      | first :: _ =>
          let ai_output := message_content first in
          let ai_result := parse_ai_response json_loads ai_output in
          let context := set_ai_result context ai_result in
          match py_in (py "error") ai_result with
          | Raise e => (Some e, {| ctx := context; calls := sent |})
          | Return false => (None, {| ctx := context; calls := sent |})
          | Return true =>
              match py_getitem ai_result (py "error") with
              | Raise e => (Some e, {| ctx := context; calls := sent |})
              | Return x =>
                  if truthy x
                  then (None, {| ctx := set_error context x; calls := sent |})
                  else (None, {| ctx := context; calls := sent |})
              end
          end
      end
  end.

(** The handler of lines 133-148. *)
Definition home_except (e : exn) (context : view_context) : view_context :=
  let context :=
    set_error context (VStr (cross_mark :: py " API Error: " ++ str_e e)) in
  let context := set_debug context (VStr (format_exc e)) in
  set_ai_result context
    (error_result (py "API Error: " ++ str_e e)
       (VStr (py "Unable to get AI response."))).

(** [home(request)]: the context it renders [home.html] with, and the
    requests it has sent to the client. *)
Definition home (g : globals) (request : http_request) : run :=
  let context :=
    {| user_code := []; ai_result := VNone; error := VNone;
       debug := VNone |} in
  if bool_decide (method request = py "POST") then
    let user_code := strip (default [] (POST request !! py "code")) in
    let context := set_user_code context user_code in
    if bool_decide (user_code = []) then
      {| ctx := set_error context
                  (VStr (cross_mark :: py " Please enter some code to review."));
         calls := [] |}
    else
      match key_is_set (GROQ_API_KEY g), client g with
      | true, Some cl =>
          match home_try cl context with
          | (None, r) => r
          | (Some e, r) =>
              {| ctx := home_except e (ctx r); calls := calls r |}
          end
      | _, _ =>
          {| ctx := set_error context
                      (VStr (cross_mark ::
                         py " API key not configured. Please check your .env file."));
             calls := [] |}
      end
  else {| ctx := context; calls := [] |}.

End home.

(** ** The states of the view

    The specification names four states of a review; the code has no
    variable for them, so a state is told from what a run leaves behind:
    without a call to the client the message tells [empty_input] from
    [misconfigured], with a call the trace in [debug] tells
    [transport_failure] from [success]. *)

Inductive state := empty_input | misconfigured | success | transport_failure.

Definition empty_input_message : list N :=
  cross_mark :: py " Please enter some code to review.".
Definition misconfigured_message : list N :=
  cross_mark :: py " API key not configured. Please check your .env file.".

Definition in_state (r : run) (s : state) : Prop :=
  match s with
  | empty_input =>
      calls r = [] ∧ error (ctx r) = VStr empty_input_message
      ∧ ai_result (ctx r) = VNone ∧ debug (ctx r) = VNone
  | misconfigured =>
      calls r = [] ∧ error (ctx r) = VStr misconfigured_message
      ∧ ai_result (ctx r) = VNone ∧ debug (ctx r) = VNone
  | success =>
      length (calls r) = 1%nat ∧ debug (ctx r) = VNone
      ∧ ai_result (ctx r) ≠ VNone
  | transport_failure =>
      length (calls r) = 1%nat ∧ debug (ctx r) ≠ VNone
      ∧ ai_result (ctx r) ≠ VNone
  end.

(** The decision of the state, in the order of the specification: the
    trimmed input first, then the configuration, then the outcome of
    the [try] statement. *)
Definition configured (g : globals) : option groq_client :=
  if key_is_set (GROQ_API_KEY g) then client g else None.

Definition state_in_order (json_loads : list N -> outcome value)
  (g : globals) (request : http_request) : state :=
  let user_code := strip (default [] (POST request !! py "code")) in
  if bool_decide (user_code = []) then empty_input
  else
    match configured g with
    | None => misconfigured
    | Some cl =>
        let context :=
          {| user_code := user_code; ai_result := VNone; error := VNone;
             debug := VNone |} in
        match fst (home_try json_loads cl context) with
        | None => success
        | Some _ => transport_failure
        end
    end.

(** ** Sample inputs

    The texts, requests and clients at which the properties below are
    evaluated. *)

(** The first example of the specification: an object with one key, in
    a tagged fence with white space around it. *)
Definition fenced_explanation : list N :=
  py "  ```json" ++ [10] ++ pyq "{'explanation':'ok'}" ++ [10] ++ py "```  ".

(** The second example of the specification, followed by a space. *)
Definition not_json_padded : list N := py "not json ".

(** An object that brings an [error] key of its own. *)
Definition object_with_error : list N := pyq "{'error': 'boom'}".

(** A tagged leading fence, an object, and three characters that are
    not a closing fence. *)
Definition unclosed_fence : list N :=
  py "```json" ++ pyq "{'fixed_code': 'x'}" ++ py "END".

(** [s] in a fenced code block: the opening fence with its tag, [s],
    the closing fence, and white space [pre] and [post] around. *)
Definition fenced (pre tag s post : list N) : list N :=
  pre ++ py "```" ++ tag ++ s ++ py "```" ++ post.

(** The look-up [v.get(key)] of a result, to compare two results field
    by field. *)
Definition field (v : value) (key : list N) : option value :=
  match v with
  | VDict d => d !! key
  | _ => None
  end.

(** A JSON array whose elements are the five key names, and a JSON
    string in which the five names occur. *)
Definition array_of_key_names : list N :=
  pyq "['syntax_errors', 'logical_errors', 'key_improvements', 'fixed_code', 'explanation']".

Definition string_of_key_names : list N :=
  pyq "'syntax_errors logical_errors key_improvements fixed_code explanation'".

(** Sample inputs of the view: two requests, a client that answers, a
    client that cannot reach the service, and the module with and
    without its key. *)
Definition blank_request : http_request :=
  {| method := py "POST"; POST := {[ py "code" := [32; 10; 9; 32] ]} |}.

Definition code_request : http_request :=
  {| method := py "POST"; POST := {[ py "code" := py "print(1)" ]} |}.

Definition answering_client (content : list N) : groq_client :=
  {| create := fun _ =>
       Return {| choices := [ {| message_content := VStr content |} ] |} |}.

Definition failing_client : groq_client :=
  {| create := fun _ =>
       Raise (Exn (OtherException (py "APIConnectionError"))
                (py "Connection error.")) |}.

Definition with_client (cl : groq_client) : globals :=
  {| GROQ_API_KEY := Some (py "gsk_test"); client := Some cl |}.

Definition without_key : globals :=
  {| GROQ_API_KEY := None; client := None |}.

Definition sample_format_exc (e : exn) : list N :=
  py "Traceback (most recent call last):" ++ [10] ++ str_e e.

(** ** The rest of the module *)

(** *** The globals as the module sets them (lines 8-16)

    [GROQ_API_KEY] is what [os.getenv] finds, and [client] is made from
    the key by the constructor [Groq] when the key is set, and is [None]
    otherwise.  The warning the module prints is not part of what it
    leaves behind. *)
Definition load_module (env_key : option (list N))
  (Groq : list N -> groq_client) : globals :=
  {| GROQ_API_KEY := env_key;
     client :=
       match env_key with
       | Some (c :: key) => Some (Groq (c :: key))
       | _ => None
       end |}.

(** *** The view [health_check] (lines 155-171)

    The probe calls [create] with three keyword arguments only, so the
    client is seen here through that call.  [render] is kept as the
    template it is given and the context it is given. *)
Record probe_request := {
  probe_model : list N;
  probe_messages : list (list N * list N);
  probe_max_tokens : Z
}.

Record probe_client := { probe_create : probe_request -> outcome completion }.

Record rendered := {
  template : list N;
  template_context : gmap (list N) value
}.

Definition health_probe : probe_request :=
  {| probe_model := py "llama-3.3-70b-versatile";
     probe_messages := [(py "user", py "Say 'OK'")];
     probe_max_tokens := 10 |}.

(** [client.chat.completions.create(...)]: on [None] the attribute
    look-up raises before anything is sent. *)
Definition probe_call (cl : option probe_client)
  : outcome completion * list probe_request :=
  match cl with
  | Some c => (probe_create c health_probe, [health_probe])
  | None =>
      (Raise (Exn AttributeError
                (py "'NoneType' object has no attribute 'chat'")), [])
  end.

(** [health_check(request)]: what it renders, and the probes it has
    sent. *)
Definition health_check (key : option (list N)) (cl : option probe_client)
  : rendered * list probe_request :=
  if negb (key_is_set key) then
    ({| template := py "error.html";
        template_context :=
          {[ py "error" := VStr (py "API Key not configured") ]} |}, [])
  else
    match probe_call cl with
    | (Return _, sent) =>
        ({| template := py "health.html";
            template_context := {[ py "status" := VStr (py "healthy") ]} |},
         sent)
    | (Raise e, sent) =>
        ({| template := py "error.html";
            template_context := {[ py "error" := VStr (str_e e) ]} |},
         sent)
    end.

(** ** More sample inputs *)

(** An object with all five keys. *)
Definition complete_object : list N :=
  pyq "{'syntax_errors': [], 'logical_errors': ['off by one'], 'key_improvements': [], 'fixed_code': 'x = 1', 'explanation': 'ok'}".

(** A POST whose code has white space around it. *)
Definition padded_request : http_request :=
  {| method := py "POST";
     POST := {[ py "code" := py "  x = 1 " ++ [10] ]} |}.

(** A decoder that fails for a reason of its own. *)
Definition exhausted_loads (s : list N) : outcome value :=
  Raise (Exn RecursionError (py "maximum recursion depth exceeded")).

(** A client whose answer has no choice, and one whose first choice has
    no content. *)
Definition silent_client : groq_client :=
  {| create := fun _ => Return {| choices := [] |} |}.

Definition contentless_client : groq_client :=
  {| create := fun _ =>
       Return {| choices := [ {| message_content := VNone |} ] |} |}.

Definition healthy_probe_client : probe_client :=
  {| probe_create := fun _ =>
       Return {| choices := [ {| message_content := VStr (py "OK") |} ] |} |}.

Definition failing_probe_client : probe_client :=
  {| probe_create := fun _ =>
       Raise (Exn (OtherException (py "AuthenticationError"))
                (py "Invalid API Key")) |}.

(** * Properties *)

(** ** Strings *)

Lemma lstrip_app_space (pre s : list N) :
  forallb isspace pre = true -> lstrip (pre ++ s) = lstrip s.
Proof.
  induction pre as [|c pre IH]; simpl; [done|].
  intros [Hc Hpre]%andb_true_iff. rewrite Hc. auto.
Qed.

Lemma lstrip_cons_nonspace (c : N) (s : list N) :
  isspace c = false -> lstrip (c :: s) = c :: s.
Proof. intros Hc. simpl. by rewrite Hc. Qed.

Lemma forallb_rev {A} (f : A -> bool) (l : list A) :
  forallb f (rev l) = forallb f l.
Proof.
  induction l as [|a l IH]; simpl; [done|].
  rewrite forallb_app, IH. simpl. rewrite andb_true_r. apply andb_comm.
Qed.

Lemma rstrip_app_space (s post : list N) :
  forallb isspace post = true -> rstrip (s ++ post) = rstrip s.
Proof.
  intros Hpost. unfold rstrip. rewrite rev_app_distr.
  rewrite lstrip_app_space; [done|]. by rewrite forallb_rev.
Qed.

Lemma rstrip_snoc_nonspace (s : list N) (c : N) :
  isspace c = false -> rstrip (s ++ [c]) = s ++ [c].
Proof.
  intros Hc. unfold rstrip. rewrite rev_app_distr. simpl.
  rewrite Hc. simpl. by rewrite rev_involutive.
Qed.

(** Trimming a text that begins and ends with a non-space character,
    with white space around it, gives the text back. *)
Lemma strip_surrounded (pre post mid : list N) (a b : N) :
  forallb isspace pre = true -> forallb isspace post = true ->
  isspace a = false -> isspace b = false ->
  strip (pre ++ (a :: mid ++ [b]) ++ post) = a :: mid ++ [b].
Proof.
  intros Hpre Hpost Ha Hb. unfold strip.
  rewrite lstrip_app_space by done.
  rewrite <- app_comm_cons, lstrip_cons_nonspace by done.
  rewrite app_comm_cons, rstrip_app_space by done.
  change (a :: mid ++ [b]) with ((a :: mid) ++ [b]).
  by apply rstrip_snoc_nonspace.
Qed.

Lemma lstrip_all_space (s : list N) :
  forallb isspace s = true -> lstrip s = [].
Proof.
  intros H. rewrite <- (app_nil_r s). by rewrite lstrip_app_space.
Qed.

(** A text of white space only, the empty one included, trims to the
    empty string. *)
Lemma strip_all_space (s : list N) :
  forallb isspace s = true -> strip s = [].
Proof. intros H. unfold strip. rewrite lstrip_all_space; [reflexivity|done]. Qed.

Lemma startswith_app (p s : list N) : startswith (p ++ s) p = true.
Proof. induction p as [|a p IH]; simpl; [done|]. by rewrite N.eqb_refl. Qed.

Lemma startswith_app_both (p s q : list N) :
  startswith (p ++ s) (p ++ q) = startswith s q.
Proof. induction p as [|a p IH]; simpl; [done|]. by rewrite N.eqb_refl. Qed.

Lemma startswith_prefix (s p q : list N) :
  startswith s (p ++ q) = true -> startswith s p = true.
Proof.
  revert s. induction p as [|a p IH]; intros [|b s]; simpl; try done.
  intros [-> H]%andb_true_iff. simpl. eauto.
Qed.

Lemma slice_to_neg_app (p s q : list N) :
  slice_to_neg (p ++ s ++ q) (length p) (length q) = s.
Proof.
  unfold slice_to_neg.
  replace (length (p ++ s ++ q) - length q)%nat with (length (p ++ s))
    by (rewrite !length_app; lia).
  rewrite app_assoc, take_app_length. apply drop_app_length.
Qed.

(** The slice [s[a:-3]] is [s] without its last three characters, then
    without its first [a]. *)
Lemma slice_to_neg_prefix (p payload : list N) :
  slice_to_neg (p ++ payload) (length p) 3
  = take (length payload - 3) payload.
Proof.
  unfold slice_to_neg. rewrite length_app.
  destruct (decide (3 <= length payload)%nat) as [Hle|Hlt].
  - replace (length p + length payload - 3)%nat
      with (length p + (length payload - 3))%nat by lia.
    rewrite take_app_add. apply drop_app_length.
  - replace (length payload - 3)%nat with 0%nat by lia.
    rewrite take_0, take_app_le by lia.
    apply drop_ge. rewrite length_take. lia.
Qed.

(** ** The decoder *)

Section decoder.

Local Arguments py : simpl never.

(** Every equation [drop n l = l'] in the context, read as an equation
    between lengths. *)
Local Ltac drop_lengths :=
  repeat match goal with
  | H : drop _ _ = _ |- _ =>
      apply (f_equal length) in H; rewrite length_drop in H; simpl in H
  end.

Lemma skip_ws_length (s : list N) (pos : nat) :
  (length (JSON.skip_ws s pos).1 <= length s)%nat.
Proof.
  revert pos. induction s as [|c s IH]; intros pos; simpl; [done|].
  destruct (JSON.is_ws c); simpl; [|done].
  specialize (IH (S pos)). lia.
Qed.

Lemma scanstring_length (fuel begin : nat) (acc s : list N) (pos : nat)
  (str r : list N) (p : nat) :
  JSON.scanstring fuel begin acc s pos = JSON.Scanned str r p ->
  (length r < length s)%nat.
Proof.
  revert acc s pos. induction fuel as [|fuel IH]; intros acc s pos; [done|].
  simpl. destruct s as [|c s1]; [done|].
  repeat case_match; try done; intros Hscan; simplify_eq; simpl;
    try (apply IH in Hscan); drop_lengths; simpl in *;
    rewrite ?length_drop in *; simpl in *; lia.
Qed.

Lemma scanstring_fuel (fuel begin : nat) (acc s : list N) (pos : nat) :
  (length s < fuel)%nat ->
  JSON.scanstring fuel begin acc s pos <> JSON.TooDeep.
Proof.
  revert acc s pos. induction fuel as [|fuel IH]; intros acc s pos; [lia|].
  simpl. destruct s as [|c s1]; [done|]. simpl. intros Hfuel.
  repeat case_match; try done; apply IH; drop_lengths; simpl in *;
    rewrite ?length_drop in *; simpl in *; lia.
Qed.

Lemma digits_length (s : list N) :
  length s = (length (JSON.digits s).1 + length (JSON.digits s).2)%nat.
Proof.
  induction s as [|c s IH]; simpl; [done|].
  destruct (JSON.is_digit c); simpl; [|done].
  destruct (JSON.digits s); simpl in *. lia.
Qed.

Lemma number_sign_length (s : list N) :
  (length (JSON.number_sign s).2 <= length s)%nat.
Proof. destruct s as [|c s]; simpl; [done|]. case_match; simpl; lia. Qed.

Lemma number_int_length (s : list N) :
  (JSON.number_int s).1 <> [] ->
  (length (JSON.number_int s).2 < length s)%nat.
Proof.
  destruct s as [|c s]; [done|]. unfold JSON.number_int.
  destruct (c =? ch "0"); [simpl; lia|].
  destruct (JSON.is_digit c); [|done].
  pose proof (digits_length (c :: s)) as Hlen.
  destruct (JSON.digits (c :: s)) as [[|d ds] r]; simpl in *; [done|].
  intros _. lia.
Qed.

Lemma number_frac_length (s : list N) :
  (length (JSON.number_frac s).2 <= length s)%nat.
Proof.
  destruct s as [|c s]; [done|]. unfold JSON.number_frac.
  destruct (c =? ch "."); [|done].
  pose proof (digits_length s) as Hlen.
  destruct (JSON.digits s) as [[|d ds] r]; simpl in *; lia.
Qed.

Lemma number_exp_length (s : list N) :
  (length (JSON.number_exp s).2 <= length s)%nat.
Proof.
  destruct s as [|c s]; [done|]. unfold JSON.number_exp.
  destruct ((c =? ch "e") || (c =? ch "E")); [|done].
  destruct s as [|d r].
  - simpl. lia.
  - destruct (d =? ch "-"); [|destruct (d =? ch "+")].
    + pose proof (digits_length r) as Hlen.
      destruct (JSON.digits r) as [[|x ds] r']; simpl in *; lia.
    + pose proof (digits_length r) as Hlen.
      destruct (JSON.digits r) as [[|x ds] r']; simpl in *; lia.
    + pose proof (digits_length (d :: r)) as Hlen.
      destruct (JSON.digits (d :: r)) as [[|x ds] r']; simpl in *; lia.
Qed.

(** A number takes at least one character, a literal its word. *)
Lemma match_number_scanned (s : list N) (pos : nat) :
  match JSON.match_number s pos with
  | JSON.Scanned _ r _ => (length r < length s)%nat
  | JSON.Failed _ _ => True
  | JSON.TooDeep => False
  end.
Proof.
  unfold JSON.match_number.
  pose proof (number_sign_length s) as Hsign.
  destruct (JSON.number_sign s) as [negative s1]. simpl in Hsign.
  pose proof (number_int_length s1) as Hint.
  destruct (JSON.number_int s1) as [[|d int_ds] s2]; [done|].
  simpl in Hint. specialize (Hint ltac:(done)).
  pose proof (number_frac_length s2) as Hfrac.
  destruct (JSON.number_frac s2) as [frac_ds s3]. simpl in Hfrac.
  pose proof (number_exp_length s3) as Hexp.
  destruct (JSON.number_exp s3) as [exp s4]. simpl in Hexp.
  lia.
Qed.

Lemma startswith_length (s p : list N) :
  startswith s p = true -> (length p <= length s)%nat.
Proof.
  revert s. induction p as [|a p IH]; intros [|b s]; simpl; try done; [lia|].
  intros [_ H]%andb_true_iff. apply IH in H. lia.
Qed.

Lemma literal_scanned (s : list N) (pos : nat) :
  match JSON.literal s pos with
  | Some (JSON.Scanned _ r _) => (length r < length s)%nat
  | Some _ => False
  | None => True
  end.
Proof.
  unfold JSON.literal.
  repeat match goal with
  | |- context [if startswith s ?w then _ else _] =>
      destruct (startswith s w) eqn:Hw;
        [ apply startswith_length in Hw; rewrite length_drop;
          let n := eval vm_compute in (length w) in
          change (length w) with n in *; lia
        | clear Hw ]
  end.
  done.
Qed.

Lemma scanstring_scanned (fuel begin : nat) (acc s : list N) (pos : nat) :
  (length s < fuel)%nat ->
  match JSON.scanstring fuel begin acc s pos with
  | JSON.Scanned _ r _ => (length r < length s)%nat
  | JSON.Failed _ _ => True
  | JSON.TooDeep => False
  end.
Proof.
  intros Hfuel.
  pose proof (scanstring_fuel fuel begin acc s pos Hfuel) as Hdeep.
  destruct (JSON.scanstring fuel begin acc s pos) as [str r p| |] eqn:Hscan;
    [by eapply scanstring_length|done|done].
Qed.

Local Arguments JSON.scanstring : simpl never.
Local Arguments JSON.literal : simpl never.
Local Arguments JSON.match_number : simpl never.
Local Arguments JSON.skip_ws : simpl never.
Local Arguments Nat.mul : simpl never.
Local Arguments ch : simpl never.
Local Arguments dquote : simpl never.

(** Name the text behind the white space at the head of the goal's
    next [skip_ws], with the bound on its length. *)
Local Ltac skip_ws_step rest pos' :=
  match goal with
  | |- context [JSON.skip_ws ?s ?p] =>
      let H := fresh "Hws" in
      pose proof (skip_ws_length s p) as H;
      destruct (JSON.skip_ws s p) as [rest pos']; simpl in H
  end.

(** Close a case of a scan: by the shape of its result, or by the
    lengths collected so far. *)
Local Ltac scan_case := simpl in *; first [done | lia].

(** What a scan returns lies strictly behind where it started, and it
    gives up only on less fuel than twice the length of the text. *)
Lemma scan_fuel (fuel : nat) :
  (forall (s : list N) (pos : nat),
     match JSON.scan_once fuel s pos with
     | JSON.Scanned _ r _ => (length r < length s)%nat
     | JSON.Failed _ _ => True
     | JSON.TooDeep => (fuel < 2 * length s + 1)%nat
     end)
  /\ (forall (d : gmap (list N) value) (s : list N) (pos : nat),
       match JSON.object_loop fuel d s pos with
       | JSON.Scanned _ r _ => (length r < length s)%nat
       | JSON.Failed _ _ => True
       | JSON.TooDeep => (fuel < 2 * length s + 2)%nat
       end)
  /\ (forall (acc : list value) (s : list N) (pos : nat),
       match JSON.array_loop fuel acc s pos with
       | JSON.Scanned _ r _ => (length r < length s)%nat
       | JSON.Failed _ _ => True
       | JSON.TooDeep => (fuel < 2 * length s + 2)%nat
       end).
Proof.
  induction fuel as [|fuel (IHscan & IHobject & IHarray)].
  { repeat split; intros; simpl; lia. }
  repeat split.
  - intros s pos. simpl. destruct s as [|c s1]; [done|].
    destruct (c =? dquote).
    { pose proof (scanstring_scanned (length (c :: s1)) pos [] s1 (S pos))
        as Hstr.
      destruct (JSON.scanstring _ _ _ _ _); scan_case. }
    destruct (c =? ch "{").
    { skip_ws_step s2 p2. destruct s2 as [|d s3].
      - specialize (IHobject ∅ [] p2).
        destruct (JSON.object_loop _ _ _ _); scan_case.
      - destruct (d =? ch "}"); [scan_case|].
        specialize (IHobject ∅ (d :: s3) p2).
        destruct (JSON.object_loop _ _ _ _); scan_case. }
    destruct (c =? ch "[").
    { skip_ws_step s2 p2. destruct s2 as [|d s3].
      - specialize (IHarray [] [] p2).
        destruct (JSON.array_loop _ _ _ _); scan_case.
      - destruct (d =? ch "]"); [scan_case|].
        specialize (IHarray [] (d :: s3) p2).
        destruct (JSON.array_loop _ _ _ _); scan_case. }
    pose proof (literal_scanned (c :: s1) pos) as Hlit.
    destruct (JSON.literal (c :: s1) pos) as [[v r p| |]|]; try done.
    pose proof (match_number_scanned (c :: s1) pos) as Hnum.
    by destruct (JSON.match_number (c :: s1) pos).
  - intros d s pos. simpl. destruct s as [|q s1]; [done|].
    destruct (negb (q =? dquote)); [done|].
    pose proof (scanstring_scanned (length (q :: s1)) pos [] s1 (S pos))
      as Hstr.
    destruct (JSON.scanstring _ _ _ _ _) as [key s2 p2| |];
      simpl in Hstr; [|done|lia].
    specialize (Hstr ltac:(lia)).
    skip_ws_step s3 p3. destruct s3 as [|c s4]; [done|].
    destruct (negb (c =? ch ":")); [done|].
    skip_ws_step s5 p5.
    specialize (IHscan s5 p5).
    destruct (JSON.scan_once fuel s5 p5) as [v s6 p6| |]; [|done|scan_case].
    skip_ws_step s7 p7. destruct s7 as [|e s8]; [done|].
    destruct (e =? ch "}"); [scan_case|].
    destruct (e =? ch ","); [|done].
    skip_ws_step s9 p9.
    specialize (IHobject (<[key:=v]> d) s9 p9).
    destruct (JSON.object_loop _ _ _ _); scan_case.
  - intros acc s pos. simpl.
    specialize (IHscan s pos).
    destruct (JSON.scan_once fuel s pos) as [v s1 p1| |]; [|done|scan_case].
    skip_ws_step s2 p2. destruct s2 as [|e s3]; [done|].
    destruct (e =? ch "]"); [scan_case|].
    destruct (e =? ch ","); [|done].
    skip_ws_step s4 p4.
    specialize (IHarray (acc ++ [v]) s4 p4).
    destruct (JSON.array_loop _ _ _ _); scan_case.
Qed.

(** [JSON.loads] always comes back with a value or with a
    [JSONDecodeError]: its fuel is enough for every text. *)
Lemma loads_returns_or_decode_error (s : list N) :
  (exists v : value, JSON.loads s = Return v)
  \/ (exists msg : list N, JSON.loads s = Raise (Exn JSONDecodeError msg)).
Proof.
  unfold JSON.loads, JSON.decode_error.
  destruct (startswith s [65279]); [right; by eexists|].
  skip_ws_step s1 p1.
  destruct (scan_fuel (2 * length s + 2)) as (Hscan & _ & _).
  specialize (Hscan s1 p1).
  destruct (JSON.scan_once _ s1 p1) as [v s2 p2| |]; [| |lia].
  - skip_ws_step s3 p3. destruct s3; [left|right]; by eexists.
  - right. by eexists.
Qed.

End decoder.

(** ** The normalizer [parse_ai_response] *)

Lemma bind_Return {A B} (a : A) (k : A -> outcome B) :
  (Return a ≫= k) = k a.
Proof. reflexivity. Qed.

Lemma bind_Raise {A B} (e : exn) (k : A -> outcome B) :
  (Raise e ≫= k) = Raise e.
Proof. reflexivity. Qed.

(** On a dict the loop over the expected keys returns a dict: a key it
    finds keeps its value, an expected key it misses gets its default,
    and no other key appears. *)
Lemma fill_keys_dict (keys : list (list N)) (d : gmap (list N) value) :
  ∃ d' : gmap (list N) value,
    fill_keys keys (VDict d) = Return (VDict d') ∧
    ∀ key : list N,
      d' !! key =
        match d !! key with
        | Some v => Some v
        | None =>
            if bool_decide (key ∈ keys) then Some (default_of key) else None
        end.
Proof.
  revert d. induction keys as [|k keys IH]; intros d.
  - exists d. split; [done|]. intros key. by destruct (d !! key).
  - simpl. unfold fill_key. simpl.
    destruct (d !! k) as [x|] eqn:Hk; simpl.
    + destruct (IH d) as (d' & Hrun & Hd'). exists d'. split; [done|].
      intros key. rewrite Hd'. destruct (d !! key) eqn:Hkey; [done|].
      assert (key ≠ k) by congruence.
      destruct (decide (key ∈ keys)).
      * rewrite !bool_decide_true; [done| |done]. by apply elem_of_cons; right.
      * rewrite !bool_decide_false; [done| |done].
        intros [?|?]%elem_of_cons; done.
    + destruct (IH (<[k := default_of k]> d)) as (d' & Hrun & Hd').
      exists d'. split; [done|].
      intros key. rewrite Hd'. destruct (decide (key = k)) as [->|Hne].
      * rewrite lookup_insert_eq, Hk.
        rewrite bool_decide_true; [done|]. apply elem_of_cons; by left.
      * rewrite lookup_insert_ne by done.
        destruct (d !! key); [done|].
        destruct (decide (key ∈ keys)).
        -- rewrite !bool_decide_true; [done| |done]. by apply elem_of_cons; right.
        -- rewrite !bool_decide_false; [done| |done].
           intros [?|?]%elem_of_cons; done.
Qed.

(** The fields of the dict the handlers build. *)
Lemma error_result_fields (msg : list N) (raw : value) :
  ∃ d : gmap (list N) value,
    error_result msg raw = VDict d ∧
    d !! py "error" = Some (VStr msg) ∧
    d !! py "raw" = Some raw ∧
    d !! py "syntax_errors" = Some (VList []) ∧
    d !! py "logical_errors" = Some (VList []) ∧
    d !! py "key_improvements" = Some (VList []) ∧
    d !! py "fixed_code" = Some (VStr []) ∧
    d !! py "explanation" = Some (VStr []).
Proof.
  eexists. split; [reflexivity|]. simpl.
  repeat split; by simplify_map_eq.
Qed.

(** The defaults of the five expected keys. *)
Lemma default_of_expected_keys :
  List.map default_of expected_keys
  = [VList []; VList []; VList []; VStr []; VStr []].
Proof. reflexivity. Qed.

Section normalizer.

Context (json_loads : list N -> outcome value).

(** The text handed to [json.loads] decides the return of the [try]
    statement. *)
Lemma parse_ai_response_try_str (ai_output : list N) :
  parse_ai_response_try json_loads (VStr ai_output)
  = (parsed_data ← json_loads (remove_code_block (strip ai_output));
     fill_keys expected_keys parsed_data).
Proof. reflexivity. Qed.

Lemma parse_ai_response_dict (ai_output : list N) (d : gmap (list N) value) :
  json_loads (remove_code_block (strip ai_output)) = Return (VDict d) ->
  ∃ d' : gmap (list N) value,
    parse_ai_response json_loads (VStr ai_output) = VDict d' ∧
    ∀ key : list N,
      d' !! key =
        match d !! key with
        | Some v => Some v
        | None =>
            if bool_decide (key ∈ expected_keys)
            then Some (default_of key) else None
        end.
Proof.
  intros Hloads. unfold parse_ai_response.
  rewrite parse_ai_response_try_str, Hloads, bind_Return.
  destruct (fill_keys_dict expected_keys d) as (d' & Hrun & Hd').
  exists d'. by rewrite Hrun.
Qed.

Lemma parse_ai_response_raise (ai_output : list N) (e : exn) :
  json_loads (remove_code_block (strip ai_output)) = Raise e ->
  parse_ai_response json_loads (VStr ai_output)
  = error_result
      ((if is_json_decode_error e
        then py "Failed to parse AI response as JSON: "
        else py "Unexpected error: ") ++ str_e e)
      (VStr ai_output).
Proof.
  intros Hloads. unfold parse_ai_response.
  rewrite parse_ai_response_try_str, Hloads, bind_Raise.
  by destruct (is_json_decode_error e).
Qed.

(** No exception leaves [parse_ai_response]: what the [try] statement
    returns is returned, and whatever it raises is turned into a
    failure dict by one of the two handlers.  This holds for every
    argument, a [str] or not. *)
Lemma parse_ai_response_cases (ai_output : value) :
  (∃ parsed_data : value,
     parse_ai_response_try json_loads ai_output = Return parsed_data
     ∧ parse_ai_response json_loads ai_output = parsed_data)
  ∨ (∃ (e : exn) (prefix : list N),
       parse_ai_response_try json_loads ai_output = Raise e
       ∧ (prefix = py "Failed to parse AI response as JSON: "
          ∨ prefix = py "Unexpected error: ")
       ∧ parse_ai_response json_loads ai_output
         = error_result (prefix ++ str_e e) ai_output).
Proof.
  unfold parse_ai_response.
  destruct (parse_ai_response_try json_loads ai_output) as [v|e].
  - left. by exists v.
  - right. exists e.
    destruct (is_json_decode_error e); eexists; eauto.
Qed.

End normalizer.

(** *** Missing keys are filled, present keys are kept *)

(** C1. When the text decodes to a JSON object, whatever subset of the
    five expected keys it lacks, [parse_ai_response] returns a dict in
    which every key of the object keeps its value unchanged, every
    expected key the object lacks holds an empty list if its name
    contains "errors" or "improvements" and an empty string otherwise,
    and no other key is added. *)
Theorem parse_ai_response_fills_missing_keys
  (json_loads : list N -> outcome value) (ai_output : list N)
  (parsed_data : gmap (list N) value) :
  json_loads (remove_code_block (strip ai_output)) = Return (VDict parsed_data) ->
  ∃ result : gmap (list N) value,
    parse_ai_response json_loads (VStr ai_output) = VDict result ∧
    (∀ (key : list N) (v : value),
       parsed_data !! key = Some v -> result !! key = Some v) ∧
    (∀ key : list N,
       key ∈ expected_keys -> parsed_data !! key = None ->
       result !! key =
         Some (if str_contains key (py "errors")
                  || str_contains key (py "improvements")
               then VList [] else VStr [])) ∧
    (∀ key : list N,
       key ∉ expected_keys -> result !! key = parsed_data !! key).
Proof.
  intros Hloads.
  destruct (parse_ai_response_dict json_loads ai_output parsed_data Hloads)
    as (result & Hres & Hlookup).
  exists result. split; [done|]. repeat split.
  - intros key v Hkey. by rewrite Hlookup, Hkey.
  - intros key Hin Hkey. rewrite Hlookup, Hkey.
    by rewrite bool_decide_true.
  - intros key Hnotin. rewrite Hlookup.
    destruct (parsed_data !! key); [done|]. by rewrite bool_decide_false.
Qed.

Lemma parse_ai_response_fills_missing_keys_witness :
  JSON.loads (remove_code_block (strip fenced_explanation))
  = Return (VDict {[ py "explanation" := VStr (py "ok") ]})
  ∧ ∃ result : gmap (list N) value,
      parse_ai_response JSON.loads (VStr fenced_explanation) = VDict result ∧
      (∀ (key : list N) (v : value),
         ({[ py "explanation" := VStr (py "ok") ]} : gmap (list N) value)
           !! key = Some v -> result !! key = Some v) ∧
      (∀ key : list N,
         key ∈ expected_keys ->
         ({[ py "explanation" := VStr (py "ok") ]} : gmap (list N) value)
           !! key = None ->
         result !! key =
           Some (if str_contains key (py "errors")
                    || str_contains key (py "improvements")
                 then VList [] else VStr [])) ∧
      (∀ key : list N,
         key ∉ expected_keys ->
         result !! key
         = ({[ py "explanation" := VStr (py "ok") ]} : gmap (list N) value)
             !! key).
Proof.
  split.
  - vm_compute. reflexivity.
  - apply (parse_ai_response_fills_missing_keys JSON.loads fenced_explanation).
    vm_compute. reflexivity.
Defined.

(** The example, evaluated: the four missing keys at their defaults and
    the explanation as given. *)
Example parse_ai_response_fenced_explanation :
  parse_ai_response JSON.loads (VStr fenced_explanation)
  = dict [(py "syntax_errors", VList []);
          (py "logical_errors", VList []);
          (py "key_improvements", VList []);
          (py "fixed_code", VStr []);
          (py "explanation", VStr (py "ok"))].
Proof. vm_compute. reflexivity. Qed.

(** *** Texts that are not JSON *)

(** C3, as amended.  When the trimmed text, without its fence, is not
    JSON ([json.loads] raises [JSONDecodeError]), [parse_ai_response]
    returns a dict whose [error] is the non-empty message "Failed to
    parse AI response as JSON: " followed by the reason of the decoder,
    whose [raw] is the input text exactly as received (not trimmed), and
    whose five content fields hold their empty defaults. *)
Theorem parse_ai_response_decode_failure
  (json_loads : list N -> outcome value) (ai_output : list N) (e : exn) :
  json_loads (remove_code_block (strip ai_output)) = Raise e ->
  is_json_decode_error e = true ->
  ∃ result : gmap (list N) value,
    parse_ai_response json_loads (VStr ai_output) = VDict result ∧
    result !! py "error"
      = Some (VStr (py "Failed to parse AI response as JSON: " ++ str_e e)) ∧
    py "Failed to parse AI response as JSON: " ++ str_e e ≠ [] ∧
    result !! py "raw" = Some (VStr ai_output) ∧
    result !! py "syntax_errors" = Some (VList []) ∧
    result !! py "logical_errors" = Some (VList []) ∧
    result !! py "key_improvements" = Some (VList []) ∧
    result !! py "fixed_code" = Some (VStr []) ∧
    result !! py "explanation" = Some (VStr []).
Proof.
  intros Hloads He.
  rewrite (parse_ai_response_raise json_loads ai_output e Hloads), He.
  destruct (error_result_fields
              (py "Failed to parse AI response as JSON: " ++ str_e e)
              (VStr ai_output)) as (d & -> & Herr & Hraw & Hrest).
  exists d. repeat split; try tauto. done.
Qed.

Lemma parse_ai_response_decode_failure_witness :
  ∃ result : gmap (list N) value,
    parse_ai_response JSON.loads (VStr not_json_padded) = VDict result ∧
    result !! py "error"
      = Some (VStr (py "Failed to parse AI response as JSON: "
                    ++ py "Expecting value: line 1 column 1 (char 0)")) ∧
    py "Failed to parse AI response as JSON: "
      ++ py "Expecting value: line 1 column 1 (char 0)" ≠ [] ∧
    result !! py "raw" = Some (VStr not_json_padded) ∧
    result !! py "syntax_errors" = Some (VList []) ∧
    result !! py "logical_errors" = Some (VList []) ∧
    result !! py "key_improvements" = Some (VList []) ∧
    result !! py "fixed_code" = Some (VStr []) ∧
    result !! py "explanation" = Some (VStr []).
Proof.
  apply (parse_ai_response_decode_failure JSON.loads not_json_padded
           (Exn JSONDecodeError
              (py "Expecting value: line 1 column 1 (char 0)"))).
  - vm_compute. reflexivity.
  - reflexivity.
Defined.

(** C3 as stated fails on [raw]: for "not json " the text is not JSON,
    [raw] holds the input with its trailing space, and the trimmed text
    is a different string. *)
Lemma parse_ai_response_raw_not_trimmed :
  JSON.loads (remove_code_block (strip not_json_padded))
  = Raise (Exn JSONDecodeError (py "Expecting value: line 1 column 1 (char 0)"))
  ∧ ∃ result : gmap (list N) value,
      parse_ai_response JSON.loads (VStr not_json_padded) = VDict result ∧
      result !! py "raw" = Some (VStr (py "not json ")) ∧
      strip not_json_padded = py "not json" ∧
      result !! py "raw" ≠ Some (VStr (strip not_json_padded)).
Proof.
  split; [vm_compute; reflexivity|].
  eexists. split; [vm_compute; reflexivity|].
  repeat split; try (vm_compute; reflexivity).
  vm_compute. discriminate.
Qed.

(** *** The [error] and [raw] keys of a decoded object *)

(** C4, as amended.  When the text decodes to a JSON object, the
    returned dict has an [error] key, and a [raw] key, exactly when the
    object has one, with the value the object gives it: neither key is
    added and neither is removed. *)
Theorem parse_ai_response_error_key_passes_through
  (json_loads : list N -> outcome value) (ai_output : list N)
  (parsed_data : gmap (list N) value) :
  json_loads (remove_code_block (strip ai_output)) = Return (VDict parsed_data) ->
  ∃ result : gmap (list N) value,
    parse_ai_response json_loads (VStr ai_output) = VDict result ∧
    result !! py "error" = parsed_data !! py "error" ∧
    result !! py "raw" = parsed_data !! py "raw".
Proof.
  intros Hloads.
  destruct (parse_ai_response_dict json_loads ai_output parsed_data Hloads)
    as (result & Hres & Hlookup).
  exists result. split; [done|].
  split; rewrite Hlookup; (destruct (parsed_data !! _); [done|]);
    vm_compute; reflexivity.
Qed.

Lemma parse_ai_response_error_key_passes_through_witness :
  JSON.loads (remove_code_block (strip object_with_error))
  = Return (VDict {[ py "error" := VStr (py "boom") ]})
  ∧ ∃ result : gmap (list N) value,
      parse_ai_response JSON.loads (VStr object_with_error) = VDict result ∧
      result !! py "error"
        = ({[ py "error" := VStr (py "boom") ]} : gmap (list N) value)
            !! py "error" ∧
      result !! py "raw"
        = ({[ py "error" := VStr (py "boom") ]} : gmap (list N) value)
            !! py "raw".
Proof.
  split.
  - vm_compute. reflexivity.
  - apply (parse_ai_response_error_key_passes_through JSON.loads
             object_with_error).
    vm_compute. reflexivity.
Defined.

(** C4 as stated fails: the text decodes, every step of the [try]
    statement succeeds, and the returned dict has an [error] key. *)
Lemma parse_ai_response_keeps_error_key :
  ∃ result : gmap (list N) value,
    parse_ai_response_try JSON.loads (VStr object_with_error)
      = Return (VDict result) ∧
    parse_ai_response JSON.loads (VStr object_with_error) = VDict result ∧
    result !! py "error" = Some (VStr (py "boom")).
Proof.
  eexists. split; [vm_compute; reflexivity|].
  split; vm_compute; reflexivity.
Qed.

(** *** Code fences *)

Lemma remove_code_block_tagged (payload : list N) :
  remove_code_block (py "```json" ++ payload)
  = strip (take (length payload - 3) payload).
Proof.
  unfold remove_code_block. rewrite startswith_app.
  by rewrite <- (slice_to_neg_prefix (py "```json")).
Qed.

Lemma remove_code_block_untagged (payload : list N) :
  startswith payload (py "json") = false ->
  remove_code_block (py "```" ++ payload)
  = strip (take (length payload - 3) payload).
Proof.
  intros Htag. unfold remove_code_block.
  change (py "```json") with (py "```" ++ py "json").
  rewrite startswith_app_both, Htag, startswith_app.
  by rewrite <- (slice_to_neg_prefix (py "```")).
Qed.

Lemma remove_code_block_no_fence (content : list N) :
  startswith content (py "```") = false ->
  remove_code_block content = content.
Proof.
  intros Hno. unfold remove_code_block. rewrite Hno.
  destruct (startswith content (py "```json")) eqn:Htag; [|done].
  change (py "```json") with (py "```" ++ py "json") in Htag.
  apply startswith_prefix in Htag. congruence.
Qed.

(** A text that does not begin with "json" still does not once a
    closing fence follows it. *)
Lemma startswith_json_app_fence (s : list N) :
  startswith s (py "json") = false ->
  startswith (s ++ py "```") (py "json") = false.
Proof.
  destruct s as [|a [|b [|c [|d s]]]]; simpl; done.
Qed.

(** C10. When the trimmed input begins with a leading fence, tagged
    ("```json") or not ("```"), the text handed to [json.loads] is the
    payload behind that fence without its final three characters,
    trimmed, whether or not those three characters are a closing fence:
    nothing in the hypothesis asks for one. *)
Theorem leading_fence_drops_last_three
  (json_loads : list N -> outcome value) (ai_output payload : list N) :
  strip ai_output = py "```json" ++ payload
  ∨ (strip ai_output = py "```" ++ payload
     ∧ startswith payload (py "json") = false) ->
  remove_code_block (strip ai_output)
    = strip (take (length payload - 3) payload)
  ∧ parse_ai_response_try json_loads (VStr ai_output)
    = (parsed_data ← json_loads (strip (take (length payload - 3) payload));
       fill_keys expected_keys parsed_data).
Proof.
  intros Hfence.
  assert (remove_code_block (strip ai_output)
          = strip (take (length payload - 3) payload)) as Hclean.
  { destruct Hfence as [->|[-> Htag]].
    - apply remove_code_block_tagged.
    - by apply remove_code_block_untagged. }
  split; [done|]. by rewrite parse_ai_response_try_str, Hclean.
Qed.

Lemma leading_fence_drops_last_three_witness :
  remove_code_block (strip unclosed_fence)
    = strip (take (length (pyq "{'fixed_code': 'x'}" ++ py "END") - 3)
               (pyq "{'fixed_code': 'x'}" ++ py "END"))
  ∧ parse_ai_response_try JSON.loads (VStr unclosed_fence)
    = (parsed_data ←
         JSON.loads
           (strip (take (length (pyq "{'fixed_code': 'x'}" ++ py "END") - 3)
                     (pyq "{'fixed_code': 'x'}" ++ py "END")));
       fill_keys expected_keys parsed_data).
Proof.
  apply (leading_fence_drops_last_three JSON.loads unclosed_fence
           (pyq "{'fixed_code': 'x'}" ++ py "END")).
  left. vm_compute. reflexivity.
Defined.

(** The unclosed fence, evaluated: the object is decoded and the three
    characters behind it are gone. *)
Example parse_ai_response_unclosed_fence :
  remove_code_block (strip unclosed_fence) = pyq "{'fixed_code': 'x'}"
  ∧ parse_ai_response JSON.loads (VStr unclosed_fence)
    = dict [(py "syntax_errors", VList []);
            (py "logical_errors", VList []);
            (py "key_improvements", VList []);
            (py "fixed_code", VStr (py "x"));
            (py "explanation", VStr [])].
Proof. split; vm_compute; reflexivity. Qed.

Lemma strip_fenced (pre tag s post : list N) :
  forallb isspace pre = true -> forallb isspace post = true ->
  strip (fenced pre tag s post) = py "```" ++ tag ++ s ++ py "```".
Proof.
  intros Hpre Hpost. unfold fenced.
  change (py "```") with ([96; 96; 96] : list N).
  replace (pre ++ [96; 96; 96] ++ tag ++ s ++ [96; 96; 96] ++ post)
    with (pre ++ (96 :: ([96; 96] ++ tag ++ s ++ [96; 96]) ++ [96]) ++ post)
    by (simpl; by rewrite <- !app_assoc).
  rewrite strip_surrounded by done.
  simpl. by rewrite <- !app_assoc.
Qed.

(** What a fence around [s] leaves for [json.loads] is what [s] alone
    leaves, when [s] has no fence of its own. *)
Lemma remove_code_block_fenced (pre tag s post : list N) :
  forallb isspace pre = true -> forallb isspace post = true ->
  startswith (strip s) (py "```") = false ->
  tag = py "json" ∨ (tag = [] ∧ startswith s (py "json") = false) ->
  remove_code_block (strip (fenced pre tag s post))
  = remove_code_block (strip s).
Proof.
  intros Hpre Hpost Hno Htag.
  rewrite strip_fenced, (remove_code_block_no_fence (strip s)) by done.
  destruct Htag as [->|[-> Hjson]].
  - change (py "```" ++ py "json" ++ s ++ py "```")
      with (py "```json" ++ s ++ py "```").
    unfold remove_code_block. rewrite startswith_app.
    f_equal. exact (slice_to_neg_app (py "```json") s (py "```")).
  - change ([] ++ s ++ py "```") with (s ++ py "```").
    unfold remove_code_block.
    change (py "```json") with (py "```" ++ py "json").
    rewrite startswith_app_both, startswith_json_app_fence by done.
    rewrite startswith_app.
    f_equal. exact (slice_to_neg_app (py "```") s (py "```")).
Qed.

(** C2, as amended.  Let [s] be a text that, trimmed, does not itself
    begin with a fence, wrapped in a tagged fence, or in an untagged one
    provided [s] does not begin with "json", with white space around.
    Then the wrapped and the unwrapped text hand the same text to
    [json.loads], so the [try] statement ends the same way for both:
    when it returns, [parse_ai_response] returns the same value for
    both; when it raises, both results are the failure dict with one
    and the same [error] message, each with its own input as [raw]. *)
Theorem parse_ai_response_fenced_same
  (json_loads : list N -> outcome value) (pre tag s post : list N) :
  forallb isspace pre = true -> forallb isspace post = true ->
  startswith (strip s) (py "```") = false ->
  tag = py "json" ∨ (tag = [] ∧ startswith s (py "json") = false) ->
  parse_ai_response_try json_loads (VStr (fenced pre tag s post))
    = parse_ai_response_try json_loads (VStr s)
  ∧ (∀ v : value,
       parse_ai_response_try json_loads (VStr s) = Return v ->
       parse_ai_response json_loads (VStr (fenced pre tag s post)) = v
       ∧ parse_ai_response json_loads (VStr s) = v)
  ∧ (∀ e : exn,
       parse_ai_response_try json_loads (VStr s) = Raise e ->
       ∃ msg : list N,
         parse_ai_response json_loads (VStr (fenced pre tag s post))
           = error_result msg (VStr (fenced pre tag s post))
         ∧ parse_ai_response json_loads (VStr s)
           = error_result msg (VStr s)).
Proof.
  intros Hpre Hpost Hno Htag.
  assert (parse_ai_response_try json_loads (VStr (fenced pre tag s post))
          = parse_ai_response_try json_loads (VStr s)) as Htry.
  { rewrite !parse_ai_response_try_str.
    by rewrite remove_code_block_fenced. }
  split; [done|]. unfold parse_ai_response. rewrite Htry. split.
  - intros v ->. done.
  - intros e ->.
    destruct (is_json_decode_error e); eexists; split; reflexivity.
Qed.

Lemma parse_ai_response_fenced_same_witness :
  parse_ai_response_try JSON.loads
    (VStr (fenced (py "  ") (py "json")
             ([10] ++ pyq "{'explanation':'ok'}" ++ [10]) (py "  ")))
    = parse_ai_response_try JSON.loads
        (VStr ([10] ++ pyq "{'explanation':'ok'}" ++ [10]))
  ∧ (∀ v : value,
       parse_ai_response_try JSON.loads
         (VStr ([10] ++ pyq "{'explanation':'ok'}" ++ [10])) = Return v ->
       parse_ai_response JSON.loads
         (VStr (fenced (py "  ") (py "json")
                  ([10] ++ pyq "{'explanation':'ok'}" ++ [10]) (py "  "))) = v
       ∧ parse_ai_response JSON.loads
           (VStr ([10] ++ pyq "{'explanation':'ok'}" ++ [10])) = v)
  ∧ (∀ e : exn,
       parse_ai_response_try JSON.loads
         (VStr ([10] ++ pyq "{'explanation':'ok'}" ++ [10])) = Raise e ->
       ∃ msg : list N,
         parse_ai_response JSON.loads
           (VStr (fenced (py "  ") (py "json")
                    ([10] ++ pyq "{'explanation':'ok'}" ++ [10]) (py "  ")))
           = error_result msg
               (VStr (fenced (py "  ") (py "json")
                        ([10] ++ pyq "{'explanation':'ok'}" ++ [10]) (py "  ")))
         ∧ parse_ai_response JSON.loads
             (VStr ([10] ++ pyq "{'explanation':'ok'}" ++ [10]))
           = error_result msg
               (VStr ([10] ++ pyq "{'explanation':'ok'}" ++ [10]))).
Proof.
  apply (parse_ai_response_fenced_same JSON.loads (py "  ") (py "json")
           ([10] ++ pyq "{'explanation':'ok'}" ++ [10]) (py "  ")).
  - reflexivity.
  - reflexivity.
  - vm_compute. reflexivity.
  - left. reflexivity.
Defined.

(** C2 as stated fails: "not json" in a tagged fence and "not json"
    alone are both turned into the failure dict, with the same message,
    but each with its own input as [raw], so the two results differ. *)
Lemma parse_ai_response_fenced_differs :
  field (parse_ai_response JSON.loads
           (VStr (fenced [] (py "json") ([10] ++ py "not json" ++ [10]) [])))
        (py "raw")
    = Some (VStr (py "```json" ++ [10] ++ py "not json" ++ [10] ++ py "```"))
  ∧ field (parse_ai_response JSON.loads
             (VStr ([10] ++ py "not json" ++ [10])))
          (py "raw")
    = Some (VStr ([10] ++ py "not json" ++ [10]))
  ∧ parse_ai_response JSON.loads
      (VStr (fenced [] (py "json") ([10] ++ py "not json" ++ [10]) []))
    ≠ parse_ai_response JSON.loads (VStr ([10] ++ py "not json" ++ [10])).
Proof.
  split; [vm_compute; reflexivity|].
  split; [vm_compute; reflexivity|].
  intros Heq. apply (f_equal (fun v => field v (py "raw"))) in Heq.
  vm_compute in Heq. discriminate.
Qed.

(** The two side conditions of the amended C2 cannot be dropped: an
    untagged fence around a text that begins with "json" is read as a
    tagged one, and a fence around a fenced text is removed once. *)
Example parse_ai_response_untagged_json_prefix :
  parse_ai_response_try JSON.loads (VStr (fenced [] [] (py "json{}") []))
    = Return (dict [(py "syntax_errors", VList []);
                    (py "logical_errors", VList []);
                    (py "key_improvements", VList []);
                    (py "fixed_code", VStr []);
                    (py "explanation", VStr [])])
  ∧ parse_ai_response_try JSON.loads (VStr (py "json{}"))
    = Raise (Exn JSONDecodeError
               (py "Expecting value: line 1 column 1 (char 0)")).
Proof. split; vm_compute; reflexivity. Qed.

Example parse_ai_response_fence_in_fence :
  parse_ai_response_try JSON.loads
    (VStr (fenced [] (py "json") (py "```{}```") []))
    = Raise (Exn JSONDecodeError
               (py "Expecting value: line 1 column 1 (char 0)"))
  ∧ parse_ai_response_try JSON.loads (VStr (py "```{}```"))
    = Return (dict [(py "syntax_errors", VList []);
                    (py "logical_errors", VList []);
                    (py "key_improvements", VList []);
                    (py "fixed_code", VStr []);
                    (py "explanation", VStr [])]).
Proof. split; vm_compute; reflexivity. Qed.

(** *** Decoded values that are not objects *)

(** [None], a boolean and a number do not support [in]: the first turn
    of the loop raises. *)
Lemma fill_keys_scalar (v : value) :
  match v with
  | VNone | VBool _ | VInt _ | VFloat _ => True
  | _ => False
  end ->
  fill_keys expected_keys v
  = Raise (Exn TypeError
             (py "argument of type '" ++ type_name v ++ py "' is not iterable")).
Proof. by destruct v. Qed.

(** On a list the loop looks each key up among the elements: it raises
    at the first key that is no element, on the assignment, and returns
    the list untouched when all keys are elements. *)
Lemma fill_keys_list (keys : list (list N)) (l : list value) :
  fill_keys keys (VList l)
  = if forallb (fun key => existsb (fun x => eq_str x key) l) keys
    then Return (VList l)
    else Raise (Exn TypeError
                  (py "list indices must be integers or slices, not str")).
Proof.
  induction keys as [|key keys IH]; [done|]. simpl.
  unfold fill_key. simpl.
  destruct (existsb (fun x => eq_str x key) l); simpl; [apply IH|done].
Qed.

(** On a string the loop looks each key up as a substring. *)
Lemma fill_keys_str (keys : list (list N)) (s : list N) :
  fill_keys keys (VStr s)
  = if forallb (str_contains s) keys
    then Return (VStr s)
    else Raise (Exn TypeError
                  (py "'str' object does not support item assignment")).
Proof.
  induction keys as [|key keys IH]; [done|]. simpl.
  unfold fill_key. simpl.
  destruct (str_contains s key); simpl; [apply IH|done].
Qed.

(** Whatever the loop returns as a dict holds the keys it was run for. *)
Lemma fill_keys_returns_dict (keys : list (list N)) (v : value)
  (d' : gmap (list N) value) :
  fill_keys keys v = Return (VDict d') ->
  ∀ key : list N, key ∈ keys -> is_Some (d' !! key).
Proof.
  intros Hrun key Hkey. destruct v as [| | | | s | l | d].
  - destruct keys; [by apply elem_of_nil in Hkey|done].
  - destruct keys; [by apply elem_of_nil in Hkey|done].
  - destruct keys; [by apply elem_of_nil in Hkey|done].
  - destruct keys; [by apply elem_of_nil in Hkey|done].
  - rewrite fill_keys_str in Hrun. by destruct (forallb _ _).
  - rewrite fill_keys_list in Hrun. by destruct (forallb _ _).
  - destruct (fill_keys_dict keys d) as (d'' & Hrun' & Hd'').
    rewrite Hrun in Hrun'. injection Hrun' as ->.
    rewrite Hd''. destruct (d !! key); [by eexists|].
    rewrite bool_decide_true by done. by eexists.
Qed.

Lemma error_result_has_expected_keys (msg : list N) (raw : value)
  (result : gmap (list N) value) :
  error_result msg raw = VDict result ->
  ∀ key : list N, key ∈ expected_keys -> is_Some (result !! key).
Proof.
  intros Hres key Hkey.
  destruct (error_result_fields msg raw)
    as (d & Hd & ? & ? & ? & ? & ? & ? & ?).
  rewrite Hres in Hd. injection Hd as ->.
  repeat (apply elem_of_cons in Hkey as [->|Hkey]; [by eexists|]).
  by apply elem_of_nil in Hkey.
Qed.

(** Every dict [parse_ai_response] returns for a text has the five
    expected keys, on each of its three paths. *)
Lemma parse_ai_response_dict_has_expected_keys
  (json_loads : list N -> outcome value) (ai_output : list N)
  (result : gmap (list N) value) :
  parse_ai_response json_loads (VStr ai_output) = VDict result ->
  ∀ key : list N, key ∈ expected_keys -> is_Some (result !! key).
Proof.
  unfold parse_ai_response. rewrite parse_ai_response_try_str.
  destruct (json_loads _) as [v|e].
  - rewrite bind_Return.
    destruct (fill_keys expected_keys v) as [v'|e] eqn:Hrun.
    + intros ->. by eapply fill_keys_returns_dict.
    + destruct (is_json_decode_error e);
        apply error_result_has_expected_keys.
  - rewrite bind_Raise.
    destruct (is_json_decode_error e); apply error_result_has_expected_keys.
Qed.

(** A JSON number is turned into the failure dict of the second
    handler. *)
Example parse_ai_response_number :
  parse_ai_response JSON.loads (VStr (py "5"))
  = error_result
      (py "Unexpected error: argument of type 'int' is not iterable")
      (VStr (py "5")).
Proof. vm_compute. reflexivity. Qed.

(** C9, at the input where the code departs from it: the text decodes
    to an array, not to an object, every [in] test of the loop succeeds
    on it, and [parse_ai_response] returns the decoded array itself
    instead of a failure dict that begins "Unexpected error". *)
Theorem parse_ai_response_returns_decoded_array :
  JSON.loads (remove_code_block (strip array_of_key_names))
    = Return (VList (List.map VStr expected_keys))
  ∧ parse_ai_response JSON.loads (VStr array_of_key_names)
    = VList (List.map VStr expected_keys)
  ∧ field (parse_ai_response JSON.loads (VStr array_of_key_names))
      (py "error") = None.
Proof. repeat split; vm_compute; reflexivity. Qed.

(** C5, at the input where the code departs from it: nothing is raised,
    but what is returned for this text is the decoded string, which is
    no dict and has none of the five content fields. *)
Theorem parse_ai_response_returns_decoded_string :
  parse_ai_response JSON.loads (VStr string_of_key_names)
    = VStr (py "syntax_errors logical_errors key_improvements fixed_code explanation")
  ∧ Forall
      (fun key =>
         field (parse_ai_response JSON.loads (VStr string_of_key_names)) key
         = None)
      expected_keys.
Proof.
  split; [vm_compute; reflexivity|].
  repeat constructor.
Qed.

(** [parse_ai_response] never returns [None], whatever it is given. *)
Lemma fill_keys_not_None (v : value) :
  fill_keys expected_keys v ≠ Return VNone.
Proof.
  destruct v as [| | | | s | l | d]; try done.
  - rewrite fill_keys_str. by destruct (forallb _ _).
  - rewrite fill_keys_list. by destruct (forallb _ _).
  - destruct (fill_keys_dict expected_keys d) as (d' & -> & _). done.
Qed.

Lemma parse_ai_response_not_None
  (json_loads : list N -> outcome value) (ai_output : value) :
  parse_ai_response json_loads ai_output ≠ VNone.
Proof.
  unfold parse_ai_response, parse_ai_response_try.
  destruct (py_strip ai_output) as [content|e].
  - rewrite bind_Return. destruct (json_loads _) as [v|e].
    + rewrite bind_Return.
      destruct (fill_keys expected_keys v) as [v'|e] eqn:Hrun.
      * intros ->. by apply (fill_keys_not_None v).
      * by destruct (is_json_decode_error e).
    + rewrite bind_Raise. by destruct (is_json_decode_error e).
  - rewrite bind_Raise. by destruct (is_json_decode_error e).
Qed.

(** ** The view [home] *)

Section view.

Context (json_loads : list N -> outcome value) (format_exc : exn -> list N).

(** The [try] statement sends one request, built from the code of the
    context, leaves [user_code] and [debug] alone, and can only end
    without an exception once [ai_result] holds a result. *)
Lemma home_try_run (cl : groq_client) (context : view_context) :
  calls (snd (home_try json_loads cl context))
    = [request_of (prompt_of (user_code context))]
  ∧ user_code (ctx (snd (home_try json_loads cl context))) = user_code context
  ∧ debug (ctx (snd (home_try json_loads cl context))) = debug context
  ∧ (fst (home_try json_loads cl context) = None ->
     ai_result (ctx (snd (home_try json_loads cl context))) ≠ VNone).
Proof.
  unfold home_try.
  destruct (create cl _) as [response|e]; [|done].
  destruct (choices response) as [|first rest]; [done|].
  pose proof (parse_ai_response_not_None json_loads (message_content first))
    as Hres.
  destruct (py_in _ _) as [[|]|e]; [|done..].
  destruct (py_getitem _ _) as [x|e]; [|done].
  by destruct (truthy x).
Qed.

(** The handler fills [error], [debug] and [ai_result]. *)
Lemma home_except_context (e : exn) (context : view_context) :
  home_except format_exc e context
  = {| user_code := user_code context;
       ai_result := error_result (py "API Error: " ++ str_e e)
                      (VStr (py "Unable to get AI response."));
       error := VStr (cross_mark :: py " API Error: " ++ str_e e);
       debug := VStr (format_exc e) |}.
Proof. reflexivity. Qed.

Lemma configured_None (g : globals) :
  configured g = None
  <-> key_is_set (GROQ_API_KEY g) = false ∨ client g = None.
Proof.
  unfold configured. destruct (key_is_set _); intuition congruence.
Qed.

(** The run of the view on a POST request, by cases in the order of the
    code. *)
Lemma home_post (g : globals) (request : http_request) :
  method request = py "POST" ->
  home json_loads format_exc g request
  = let user_code := strip (default [] (POST request !! py "code")) in
    let context :=
      {| user_code := user_code; ai_result := VNone; error := VNone;
         debug := VNone |} in
    if bool_decide (user_code = []) then
      {| ctx := set_error context (VStr empty_input_message); calls := [] |}
    else
      match configured g with
      | None =>
          {| ctx := set_error context (VStr misconfigured_message);
             calls := [] |}
      | Some cl =>
          match fst (home_try json_loads cl context) with
          | None => snd (home_try json_loads cl context)
          | Some e =>
              {| ctx := home_except format_exc e
                          (ctx (snd (home_try json_loads cl context)));
                 calls := calls (snd (home_try json_loads cl context)) |}
          end
      end.
Proof.
  intros Hpost. unfold home, configured. rewrite bool_decide_true by done.
  cbv zeta. destruct (bool_decide _); [done|].
  destruct (key_is_set _); [|done].
  destruct (client g) as [cl|]; [|done].
  by destruct (home_try _ _ _) as [[e|] r].
Qed.

(** No run is in two states. *)
Lemma in_state_exclusive (r : run) (s1 s2 : state) :
  in_state r s1 -> in_state r s2 -> s1 = s2.
Proof.
  assert (empty_input_message ≠ misconfigured_message) as Hmsg
    by (vm_compute; discriminate).
  destruct s1, s2; simpl; try done; intros H1 H2; destruct_and!;
    try congruence;
    match goal with
    | H : calls r = [], H' : length (calls r) = 1%nat |- _ =>
        rewrite H in H'; discriminate
    end.
Qed.

(** On a POST request the run is in the state that the order of the
    specification decides. *)
Lemma home_in_state (g : globals) (request : http_request) :
  method request = py "POST" ->
  in_state (home json_loads format_exc g request)
    (state_in_order json_loads g request).
Proof.
  intros Hpost. rewrite home_post by done. unfold state_in_order.
  cbv zeta. destruct (bool_decide _); [done|].
  destruct (configured g) as [cl|]; [|done].
  match goal with
  | |- context [home_try json_loads cl ?c] =>
      destruct (home_try_run cl c) as (Hcalls & _ & Hdebug & Hresult)
  end.
  destruct (fst (home_try _ _ _)) as [e|].
  - simpl. by rewrite Hcalls.
  - simpl. rewrite Hcalls, Hdebug. auto.
Qed.

(** Whatever exception ends the [try] statement, be it raised by the
    call, by the subscript [choices[0]] or by the test of the result,
    the view renders the context of the handler, after one call. *)
Lemma home_exception_recovered (g : globals) (request : http_request)
  (cl : groq_client) (e : exn) :
  method request = py "POST" ->
  strip (default [] (POST request !! py "code")) ≠ [] ->
  configured g = Some cl ->
  fst (home_try json_loads cl
         {| user_code := strip (default [] (POST request !! py "code"));
            ai_result := VNone; error := VNone; debug := VNone |}) = Some e ->
  home json_loads format_exc g request
  = {| ctx := {| user_code := strip (default [] (POST request !! py "code"));
                 ai_result := error_result (py "API Error: " ++ str_e e)
                                (VStr (py "Unable to get AI response."));
                 error := VStr (cross_mark :: py " API Error: " ++ str_e e);
                 debug := VStr (format_exc e) |};
       calls :=
         [request_of
            (prompt_of (strip (default [] (POST request !! py "code"))))] |}.
Proof.
  intros Hpost Hcode Hconf Hraise.
  rewrite home_post by done. cbv zeta.
  rewrite bool_decide_false by done. rewrite Hconf, Hraise.
  match goal with
  | |- context [home_try json_loads cl ?c] =>
      destruct (home_try_run cl c) as (Hcalls & Huser & _ & _)
  end.
  by rewrite home_except_context, Hcalls, Huser.
Qed.

End view.

(** C6. On a POST request whose code is empty or white space only (or
    absent), whatever the configuration and the client, the view sends
    nothing to the client and renders the context of the empty-input
    state: its message in [error], and [ai_result] still [None]. *)
Theorem home_empty_input
  (json_loads : list N -> outcome value) (format_exc : exn -> list N)
  (g : globals) (request : http_request) :
  method request = py "POST" ->
  forallb isspace (default [] (POST request !! py "code")) = true ->
  home json_loads format_exc g request
  = {| ctx := {| user_code := [];
                 ai_result := VNone;
                 error := VStr (cross_mark ::
                            py " Please enter some code to review.");
                 debug := VNone |};
       calls := [] |}.
Proof.
  intros Hpost Hblank. rewrite home_post by done. cbv zeta.
  rewrite (strip_all_space _ Hblank). by rewrite bool_decide_true.
Qed.

Lemma home_empty_input_witness :
  home JSON.loads sample_format_exc
    (with_client (answering_client (pyq "{'explanation': 'ok'}")))
    blank_request
  = {| ctx := {| user_code := [];
                 ai_result := VNone;
                 error := VStr (cross_mark ::
                            py " Please enter some code to review.");
                 debug := VNone |};
       calls := [] |}.
Proof.
  apply (home_empty_input JSON.loads sample_format_exc
           (with_client (answering_client (pyq "{'explanation': 'ok'}")))
           blank_request).
  - reflexivity.
  - vm_compute. reflexivity.
Defined.

(** C7. On a POST request with code that is not blank, when the key is
    missing or there is no client, the view sends nothing to the client
    and renders the context of the misconfigured state, with the
    configuration message in [error]; and on every POST request the run
    is in exactly one of the four states, the one decided in the order
    empty input, misconfigured, then success or transport failure by the
    outcome of the call. *)
Theorem home_misconfigured_and_states
  (json_loads : list N -> outcome value) (format_exc : exn -> list N)
  (g : globals) (request : http_request) :
  method request = py "POST" ->
  (strip (default [] (POST request !! py "code")) ≠ [] ->
   key_is_set (GROQ_API_KEY g) = false ∨ client g = None ->
   home json_loads format_exc g request
   = {| ctx := {| user_code := strip (default [] (POST request !! py "code"));
                  ai_result := VNone;
                  error := VStr (cross_mark ::
                    py " API key not configured. Please check your .env file.");
                  debug := VNone |};
        calls := [] |})
  ∧ in_state (home json_loads format_exc g request)
      (state_in_order json_loads g request)
  ∧ (∀ s : state,
       in_state (home json_loads format_exc g request) s ->
       s = state_in_order json_loads g request).
Proof.
  intros Hpost. split; [|split].
  - intros Hcode Hconf%configured_None.
    rewrite home_post by done. cbv zeta.
    rewrite bool_decide_false by done. by rewrite Hconf.
  - by apply home_in_state.
  - intros s Hs. eapply in_state_exclusive; [done|].
    by apply home_in_state.
Qed.

Lemma home_misconfigured_and_states_witness :
  strip (default [] (POST code_request !! py "code")) ≠ []
  ∧ (key_is_set (GROQ_API_KEY without_key) = false
     ∨ client without_key = None)
  ∧ home JSON.loads sample_format_exc without_key code_request
    = {| ctx := {| user_code := py "print(1)";
                   ai_result := VNone;
                   error := VStr (cross_mark ::
                     py " API key not configured. Please check your .env file.");
                   debug := VNone |};
         calls := [] |}
  ∧ in_state (home JSON.loads sample_format_exc without_key code_request)
      misconfigured.
Proof.
  destruct (home_misconfigured_and_states JSON.loads sample_format_exc
              without_key code_request eq_refl) as (Hrun & Hstate & _).
  assert (strip (default [] (POST code_request !! py "code")) ≠ [])
    as Hcode by (vm_compute; discriminate).
  split; [exact Hcode|].
  split; [left; reflexivity|].
  split; [exact (Hrun Hcode (or_introl eq_refl))|exact Hstate].
Defined.

(** C8. When the call to the client raises, the view renders a context
    whose [error] holds the description of the failure, whose [debug]
    holds the trace, and whose [ai_result] is the fallback dict, with
    [error] set and the five content fields empty; the view returns as
    on any other path, after that one call. *)
Theorem home_transport_failure
  (json_loads : list N -> outcome value) (format_exc : exn -> list N)
  (g : globals) (request : http_request) (cl : groq_client) (e : exn) :
  method request = py "POST" ->
  strip (default [] (POST request !! py "code")) ≠ [] ->
  key_is_set (GROQ_API_KEY g) = true ->
  client g = Some cl ->
  create cl
    (request_of (prompt_of (strip (default [] (POST request !! py "code")))))
    = Raise e ->
  home json_loads format_exc g request
  = {| ctx := {| user_code := strip (default [] (POST request !! py "code"));
                 ai_result :=
                   dict [(py "error", VStr (py "API Error: " ++ str_e e));
                         (py "raw", VStr (py "Unable to get AI response."));
                         (py "syntax_errors", VList []);
                         (py "logical_errors", VList []);
                         (py "key_improvements", VList []);
                         (py "fixed_code", VStr []);
                         (py "explanation", VStr [])];
                 error := VStr (cross_mark :: py " API Error: " ++ str_e e);
                 debug := VStr (format_exc e) |};
       calls :=
         [request_of
            (prompt_of (strip (default [] (POST request !! py "code"))))] |}.
Proof.
  intros Hpost Hcode Hkey Hclient Hraise.
  rewrite home_post by done. cbv zeta.
  rewrite bool_decide_false by done.
  unfold configured. rewrite Hkey, Hclient.
  unfold home_try. cbn [user_code]. rewrite Hraise. reflexivity.
Qed.

Lemma home_transport_failure_witness :
  home JSON.loads sample_format_exc (with_client failing_client) code_request
  = {| ctx := {| user_code := py "print(1)";
                 ai_result :=
                   dict [(py "error", VStr (py "API Error: Connection error."));
                         (py "raw", VStr (py "Unable to get AI response."));
                         (py "syntax_errors", VList []);
                         (py "logical_errors", VList []);
                         (py "key_improvements", VList []);
                         (py "fixed_code", VStr []);
                         (py "explanation", VStr [])];
                 error := VStr (cross_mark ::
                            py " API Error: Connection error.");
                 debug := VStr (py "Traceback (most recent call last):"
                                ++ [10] ++ py "Connection error.") |};
       calls := [request_of (prompt_of (py "print(1)"))] |}.
Proof.
  apply (home_transport_failure JSON.loads sample_format_exc
           (with_client failing_client) code_request failing_client
           (Exn (OtherException (py "APIConnectionError"))
              (py "Connection error."))).
  - reflexivity.
  - vm_compute. discriminate.
  - reflexivity.
  - reflexivity.
  - reflexivity.
Defined.

(** *** Runs of the view, evaluated *)

(** A GET request renders the initial context. *)
Example home_get :
  home JSON.loads sample_format_exc without_key
    {| method := py "GET"; POST := ∅ |}
  = {| ctx := {| user_code := []; ai_result := VNone; error := VNone;
                 debug := VNone |};
       calls := [] |}.
Proof. reflexivity. Qed.

(** The client answers with the fenced example: one call, the result in
    [ai_result], no error and no trace. *)
Example home_success :
  home JSON.loads sample_format_exc
    (with_client (answering_client fenced_explanation)) code_request
  = {| ctx := {| user_code := py "print(1)";
                 ai_result :=
                   dict [(py "syntax_errors", VList []);
                         (py "logical_errors", VList []);
                         (py "key_improvements", VList []);
                         (py "fixed_code", VStr []);
                         (py "explanation", VStr (py "ok"))];
                 error := VNone;
                 debug := VNone |};
       calls := [request_of (prompt_of (py "print(1)"))] |}.
Proof. vm_compute. reflexivity. Qed.

(** The client answers with a text that is not JSON: the message of the
    normalizer is also the [error] of the context. *)
Example home_decode_failure :
  error (ctx (home JSON.loads sample_format_exc
                (with_client (answering_client (py "not json")))
                code_request))
  = VStr (py "Failed to parse AI response as JSON: Expecting value: line 1 column 1 (char 0)")
  ∧ debug (ctx (home JSON.loads sample_format_exc
                  (with_client (answering_client (py "not json")))
                  code_request))
    = VNone.
Proof. split; vm_compute; reflexivity. Qed.

(** The client answers with the JSON string of the five key names: the
    normalizer hands the string back, the test ["error" in ai_result]
    finds the substring, the subscript raises, and the view renders the
    context of a failed call although the call succeeded. *)
Example home_on_decoded_string :
  error (ctx (home JSON.loads sample_format_exc
                (with_client (answering_client string_of_key_names))
                code_request))
  = VStr (cross_mark ::
            py " API Error: string indices must be integers, not 'str'")
  ∧ in_state (home JSON.loads sample_format_exc
                (with_client (answering_client string_of_key_names))
                code_request)
      transport_failure.
Proof.
  split; [vm_compute; reflexivity|].
  apply (home_in_state JSON.loads sample_format_exc
           (with_client (answering_client string_of_key_names))
           code_request eq_refl).
Qed.

(** * Further properties *)

(** ** Strings *)

Lemma lstrip_nil_all_space (s : list N) :
  lstrip s = [] -> forallb isspace s = true.
Proof.
  induction s as [|c s IH]; simpl; [done|].
  destruct (isspace c); [done|discriminate].
Qed.

Lemma lstrip_app_nonempty (s t : list N) :
  lstrip s <> [] -> lstrip (s ++ t) = lstrip s ++ t.
Proof.
  induction s as [|c s IH]; simpl; [done|].
  destruct (isspace c); [done|reflexivity].
Qed.

(** White space around a text does not change what trimming leaves. *)
Lemma strip_app_space (pre s post : list N) :
  forallb isspace pre = true -> forallb isspace post = true ->
  strip (pre ++ s ++ post) = strip s.
Proof.
  intros Hpre Hpost. unfold strip. rewrite lstrip_app_space by done.
  destruct (lstrip s) as [|c t] eqn:Hs.
  - apply lstrip_nil_all_space in Hs.
    rewrite lstrip_all_space; [done|].
    by rewrite forallb_app, Hs, Hpost.
  - rewrite lstrip_app_nonempty by (by rewrite Hs).
    rewrite Hs. by apply rstrip_app_space.
Qed.


(** ** The normalizer, further *)

Section normalizer_further.

Context (json_loads : list N -> outcome value).

(** X1. When the text decodes to an object that has all five expected
    keys, [parse_ai_response] returns that object as decoded: nothing
    is added, removed or replaced. *)
Theorem parse_ai_response_complete_object (ai_output : list N)
  (parsed_data : gmap (list N) value) :
  json_loads (remove_code_block (strip ai_output)) = Return (VDict parsed_data) ->
  (forall key : list N, key ∈ expected_keys -> is_Some (parsed_data !! key)) ->
  parse_ai_response json_loads (VStr ai_output) = VDict parsed_data.
Proof.
  intros Hloads Hall.
  destruct (parse_ai_response_dict json_loads ai_output parsed_data Hloads)
    as (result & -> & Hlookup).
  f_equal. apply map_eq. intros key. rewrite Hlookup.
  destruct (parsed_data !! key) eqn:Hkey; [done|].
  rewrite bool_decide_false; [done|].
  intros Hin. apply Hall in Hin. rewrite Hkey in Hin. by destruct Hin.
Qed.

(** X2. Whatever the text, what [parse_ai_response] returns for it is
    a dict that has the five expected keys, or else the decoded value
    itself when that is a list with the five names among its elements
    or a string with the five names inside it; it is never [None], a
    boolean or a number. *)
Theorem parse_ai_response_result_shape (ai_output : list N) :
  (exists d : gmap (list N) value,
     parse_ai_response json_loads (VStr ai_output) = VDict d
     /\ forall key : list N, key ∈ expected_keys -> is_Some (d !! key))
  \/ (exists l : list value,
        parse_ai_response json_loads (VStr ai_output) = VList l
        /\ json_loads (remove_code_block (strip ai_output)) = Return (VList l)
        /\ forall key : list N, key ∈ expected_keys -> VStr key ∈ l)
  \/ (exists t : list N,
        parse_ai_response json_loads (VStr ai_output) = VStr t
        /\ json_loads (remove_code_block (strip ai_output)) = Return (VStr t)
        /\ forall key : list N,
             key ∈ expected_keys -> str_contains t key = true).
Proof.
  destruct (json_loads (remove_code_block (strip ai_output)))
    as [v|e] eqn:Hloads.
  2:{ left. rewrite (parse_ai_response_raise _ _ _ Hloads).
      eexists. split; [reflexivity|].
      intros key Hkey.
      eapply error_result_has_expected_keys; [reflexivity|done]. }
  unfold parse_ai_response.
  rewrite parse_ai_response_try_str, Hloads, bind_Return.
  assert (forall e : exn,
            exists d : gmap (list N) value,
              (if is_json_decode_error e
               then error_result
                      (py "Failed to parse AI response as JSON: " ++ str_e e)
                      (VStr ai_output)
               else error_result (py "Unexpected error: " ++ str_e e)
                      (VStr ai_output)) = VDict d
              /\ forall key : list N,
                   key ∈ expected_keys -> is_Some (d !! key)) as Hhandler.
  { intros e. destruct (is_json_decode_error e); eexists;
      (split; [reflexivity|]); intros key Hkey;
      (eapply error_result_has_expected_keys; [reflexivity|done]). }
  destruct v as [| | | | t | l | d];
    try (rewrite fill_keys_scalar by done; left; apply Hhandler).
  - rewrite fill_keys_str.
    destruct (forallb (str_contains t) expected_keys) eqn:Hall;
      [|left; apply Hhandler].
    right; right. exists t. repeat split.
    intros key Hkey. rewrite forallb_forall in Hall.
    by apply Hall, list_elem_of_In.
  - rewrite fill_keys_list.
    destruct (forallb _ expected_keys) eqn:Hall; [|left; apply Hhandler].
    right; left. exists l. repeat split.
    intros key Hkey. rewrite forallb_forall in Hall.
    apply list_elem_of_In, Hall in Hkey.
    apply existsb_exists in Hkey as (x & Hx & Heq).
    destruct x; try done. apply bool_decide_eq_true in Heq as ->.
    by apply list_elem_of_In.
  - left. destruct (fill_keys_dict expected_keys d) as (d' & -> & Hd').
    exists d'. split; [done|]. intros key Hkey. rewrite Hd'.
    destruct (d !! key); [by eexists|].
    rewrite bool_decide_true by done. by eexists.
Qed.

(** X3. When the text decodes to [None], a boolean or a number, the
    first [in] test raises and the second handler answers: the failure
    dict with "Unexpected error: argument of type '...' is not
    iterable" and the input as [raw]. *)
Theorem parse_ai_response_scalar (ai_output : list N) (v : value) :
  json_loads (remove_code_block (strip ai_output)) = Return v ->
  match v with
  | VNone | VBool _ | VInt _ | VFloat _ => True
  | _ => False
  end ->
  parse_ai_response json_loads (VStr ai_output)
  = error_result
      (py "Unexpected error: argument of type '" ++ type_name v
       ++ py "' is not iterable")
      (VStr ai_output).
Proof.
  intros Hloads Hscalar. unfold parse_ai_response.
  rewrite parse_ai_response_try_str, Hloads, bind_Return.
  by rewrite fill_keys_scalar.
Qed.

(** X4. When the text decodes to a list, the list comes back untouched
    if each of the five names is one of its elements; otherwise the
    first missing name makes the assignment raise, and the result is
    the failure dict of the second handler. *)
Theorem parse_ai_response_list (ai_output : list N) (l : list value) :
  json_loads (remove_code_block (strip ai_output)) = Return (VList l) ->
  parse_ai_response json_loads (VStr ai_output)
  = if forallb (fun key => existsb (fun x => eq_str x key) l) expected_keys
    then VList l
    else error_result
           (py "Unexpected error: list indices must be integers or slices, not str")
           (VStr ai_output).
Proof.
  intros Hloads. unfold parse_ai_response.
  rewrite parse_ai_response_try_str, Hloads, bind_Return, fill_keys_list.
  by destruct (forallb _ _).
Qed.

(** X5. When the text decodes to a string, the string comes back
    untouched if each of the five names occurs in it; otherwise the
    result is the failure dict of the second handler. *)
Theorem parse_ai_response_string (ai_output t : list N) :
  json_loads (remove_code_block (strip ai_output)) = Return (VStr t) ->
  parse_ai_response json_loads (VStr ai_output)
  = if forallb (str_contains t) expected_keys
    then VStr t
    else error_result
           (py "Unexpected error: 'str' object does not support item assignment")
           (VStr ai_output).
Proof.
  intros Hloads. unfold parse_ai_response.
  rewrite parse_ai_response_try_str, Hloads, bind_Return, fill_keys_str.
  by destruct (forallb _ _).
Qed.

(** X6. When [json.loads] raises anything but [JSONDecodeError], the
    second handler answers: the failure dict whose [error] is
    "Unexpected error: " followed by the description, with the input as
    [raw] and the five content fields empty. *)
Theorem parse_ai_response_other_exception (ai_output : list N) (e : exn) :
  json_loads (remove_code_block (strip ai_output)) = Raise e ->
  is_json_decode_error e = false ->
  parse_ai_response json_loads (VStr ai_output)
  = dict [(py "error", VStr (py "Unexpected error: " ++ str_e e));
          (py "raw", VStr ai_output);
          (py "syntax_errors", VList []);
          (py "logical_errors", VList []);
          (py "key_improvements", VList []);
          (py "fixed_code", VStr []);
          (py "explanation", VStr [])].
Proof.
  intros Hloads He.
  by rewrite (parse_ai_response_raise json_loads ai_output e Hloads), He.
Qed.

(** X7. An argument that is not a string ([None], as when a choice has
    no content) has no [strip]: the decoder is never consulted and the
    result is the failure dict of the second handler, with the argument
    itself as [raw]. *)
Theorem parse_ai_response_not_a_string (ai_output : value) :
  (forall s : list N, ai_output <> VStr s) ->
  parse_ai_response json_loads ai_output
  = error_result
      (py "Unexpected error: '" ++ type_name ai_output
       ++ py "' object has no attribute 'strip'")
      ai_output.
Proof.
  intros Hnot. destruct ai_output; try reflexivity.
  by destruct (Hnot s).
Qed.

(** X8. White space before and after the text changes nothing of what
    the [try] statement does: the same text reaches [json.loads], and
    the same value is returned or the same exception raised. *)
Theorem parse_ai_response_try_surrounding_space (pre s post : list N) :
  forallb isspace pre = true -> forallb isspace post = true ->
  parse_ai_response_try json_loads (VStr (pre ++ s ++ post))
  = parse_ai_response_try json_loads (VStr s).
Proof.
  intros Hpre Hpost. rewrite !parse_ai_response_try_str.
  by rewrite strip_app_space.
Qed.

(** X9. A text that, trimmed, does not begin with a fence reaches
    [json.loads] as trimmed, with nothing removed at its end, even when
    it ends with a closing fence. *)
Theorem parse_ai_response_try_no_leading_fence (ai_output : list N) :
  startswith (strip ai_output) (py "```") = false ->
  remove_code_block (strip ai_output) = strip ai_output
  /\ parse_ai_response_try json_loads (VStr ai_output)
     = (parsed_data ← json_loads (strip ai_output);
        fill_keys expected_keys parsed_data).
Proof.
  intros Hno. rewrite parse_ai_response_try_str.
  by rewrite remove_code_block_no_fence.
Qed.

End normalizer_further.

(** X10. Behind a leading fence, at most three characters leave nothing
    for [json.loads]: the bounds of the slice cross and the text handed
    over is empty. *)
Theorem remove_code_block_short_payload (content payload : list N) :
  content = py "```json" ++ payload
  \/ (content = py "```" ++ payload
      /\ startswith payload (py "json") = false) ->
  (length payload <= 3)%nat ->
  remove_code_block content = [].
Proof.
  intros Hfence Hshort.
  assert (remove_code_block content
          = strip (take (length payload - 3) payload)) as ->.
  { destruct Hfence as [->|[-> Htag]].
    - apply remove_code_block_tagged.
    - by apply remove_code_block_untagged. }
  by replace (length payload - 3)%nat with 0%nat by lia.
Qed.

(** X24. The loop over the expected keys is idempotent: run on what
    it returned, it returns the same value again, so a result that went
    through it once has nothing left to fill. *)
Theorem fill_keys_idempotent (parsed_data filled : value) :
  fill_keys expected_keys parsed_data = Return filled ->
  fill_keys expected_keys filled = Return filled.
Proof.
  intros Hrun. destruct parsed_data as [| | | | t | l | d]; try done.
  - rewrite fill_keys_str in Hrun.
    destruct (forallb (str_contains t) expected_keys) eqn:Hall; [|done].
    injection Hrun as <-. by rewrite fill_keys_str, Hall.
  - rewrite fill_keys_list in Hrun.
    destruct (forallb _ expected_keys) eqn:Hall; [|done].
    injection Hrun as <-. by rewrite fill_keys_list, Hall.
  - destruct (fill_keys_dict expected_keys d) as (d' & Hd & Hlookup).
    rewrite Hrun in Hd. injection Hd as ->.
    destruct (fill_keys_dict expected_keys d') as (d'' & -> & Hlookup').
    do 2 f_equal. apply map_eq. intros key.
    rewrite Hlookup'. destruct (d' !! key) eqn:Hkey; [done|].
    destruct (decide (key ∈ expected_keys)) as [Hin|Hnotin];
      [|by rewrite bool_decide_false].
    rewrite Hlookup in Hkey. destruct (d !! key); [done|].
    by rewrite bool_decide_true in Hkey.
Qed.

Lemma fill_keys_idempotent_witness :
  fill_keys expected_keys
    (dict [(py "syntax_errors", VList []);
           (py "logical_errors", VList []);
           (py "key_improvements", VList []);
           (py "fixed_code", VStr []);
           (py "explanation", VStr (py "ok"))])
  = Return
      (dict [(py "syntax_errors", VList []);
             (py "logical_errors", VList []);
             (py "key_improvements", VList []);
             (py "fixed_code", VStr []);
             (py "explanation", VStr (py "ok"))]).
Proof.
  apply (fill_keys_idempotent (dict [(py "explanation", VStr (py "ok"))])).
  vm_compute. reflexivity.
Defined.

Lemma parse_ai_response_complete_object_witness :
  parse_ai_response JSON.loads (VStr complete_object)
  = dict [(py "syntax_errors", VList []);
          (py "logical_errors", VList [VStr (py "off by one")]);
          (py "key_improvements", VList []);
          (py "fixed_code", VStr (py "x = 1"));
          (py "explanation", VStr (py "ok"))].
Proof.
  apply (parse_ai_response_complete_object JSON.loads complete_object).
  - vm_compute. reflexivity.
  - intros key Hkey.
    repeat (apply elem_of_cons in Hkey as [->|Hkey];
            [vm_compute; eauto|]).
    by apply elem_of_nil in Hkey.
Defined.

Lemma parse_ai_response_scalar_witness :
  parse_ai_response JSON.loads (VStr (py " 42 "))
  = error_result
      (py "Unexpected error: argument of type '" ++ type_name (VInt 42)
       ++ py "' is not iterable")
      (VStr (py " 42 ")).
Proof.
  apply (parse_ai_response_scalar JSON.loads (py " 42 ") (VInt 42)).
  - vm_compute. reflexivity.
  - exact I.
Defined.

Lemma parse_ai_response_list_witness :
  parse_ai_response JSON.loads (VStr (pyq "['fixed_code', 1]"))
  = if forallb
         (fun key =>
            existsb (fun x => eq_str x key) [VStr (py "fixed_code"); VInt 1])
         expected_keys
    then VList [VStr (py "fixed_code"); VInt 1]
    else error_result
           (py "Unexpected error: list indices must be integers or slices, not str")
           (VStr (pyq "['fixed_code', 1]")).
Proof.
  apply (parse_ai_response_list JSON.loads (pyq "['fixed_code', 1]")).
  vm_compute. reflexivity.
Defined.

Lemma parse_ai_response_string_witness :
  parse_ai_response JSON.loads (VStr (pyq "'looks fine'"))
  = if forallb (str_contains (py "looks fine")) expected_keys
    then VStr (py "looks fine")
    else error_result
           (py "Unexpected error: 'str' object does not support item assignment")
           (VStr (pyq "'looks fine'")).
Proof.
  apply (parse_ai_response_string JSON.loads (pyq "'looks fine'")).
  vm_compute. reflexivity.
Defined.

Lemma parse_ai_response_other_exception_witness :
  parse_ai_response exhausted_loads (VStr (py "[[[["))
  = dict [(py "error",
           VStr (py "Unexpected error: "
                 ++ py "maximum recursion depth exceeded"));
          (py "raw", VStr (py "[[[["));
          (py "syntax_errors", VList []);
          (py "logical_errors", VList []);
          (py "key_improvements", VList []);
          (py "fixed_code", VStr []);
          (py "explanation", VStr [])].
Proof.
  apply (parse_ai_response_other_exception exhausted_loads (py "[[[[")
           (Exn RecursionError (py "maximum recursion depth exceeded"))).
  - reflexivity.
  - reflexivity.
Defined.

Lemma parse_ai_response_not_a_string_witness :
  parse_ai_response JSON.loads VNone
  = error_result
      (py "Unexpected error: '" ++ type_name VNone
       ++ py "' object has no attribute 'strip'")
      VNone.
Proof.
  apply (parse_ai_response_not_a_string JSON.loads VNone).
  intros s. discriminate.
Defined.

Lemma parse_ai_response_try_surrounding_space_witness :
  parse_ai_response_try JSON.loads
    (VStr ([10; 32] ++ complete_object ++ [32; 10; 10]))
  = parse_ai_response_try JSON.loads (VStr complete_object).
Proof.
  apply (parse_ai_response_try_surrounding_space JSON.loads
           [10; 32] complete_object [32; 10; 10]); reflexivity.
Defined.

Lemma parse_ai_response_try_no_leading_fence_witness :
  remove_code_block (strip (pyq "{}```  ")) = strip (pyq "{}```  ")
  /\ parse_ai_response_try JSON.loads (VStr (pyq "{}```  "))
     = (parsed_data ← JSON.loads (strip (pyq "{}```  "));
        fill_keys expected_keys parsed_data).
Proof.
  apply (parse_ai_response_try_no_leading_fence JSON.loads (pyq "{}```  ")).
  vm_compute. reflexivity.
Defined.

Lemma remove_code_block_short_payload_witness :
  remove_code_block (py "```json{}") = [].
Proof.
  apply (remove_code_block_short_payload (py "```json{}") (py "{}")).
  - left. reflexivity.
  - vm_compute. lia.
Defined.

(** ** The view [home], further *)

Section view_further.

Context (json_loads : list N -> outcome value) (format_exc : exn -> list N).

(** The run of the view when the client answers and the normalizer
    returns a dict: the dict is the result, its [error], if it has one
    that is true, is also the [error] of the context, and there is no
    trace. *)
Lemma home_answered (g : globals) (request : http_request)
  (cl : groq_client) (response : completion) (first : choice)
  (rest : list choice) (d : gmap (list N) value) :
  method request = py "POST" ->
  strip (default [] (POST request !! py "code")) <> [] ->
  configured g = Some cl ->
  create cl
    (request_of (prompt_of (strip (default [] (POST request !! py "code")))))
    = Return response ->
  choices response = first :: rest ->
  parse_ai_response json_loads (message_content first) = VDict d ->
  home json_loads format_exc g request
  = {| ctx := {| user_code := strip (default [] (POST request !! py "code"));
                 ai_result := VDict d;
                 error := match d !! py "error" with
                          | Some x => if truthy x then x else VNone
                          | None => VNone
                          end;
                 debug := VNone |};
       calls :=
         [request_of
            (prompt_of (strip (default [] (POST request !! py "code"))))] |}.
Proof.
  intros Hpost Hcode Hconf Hcreate Hchoices Hparse.
  rewrite home_post by done. cbv zeta.
  rewrite bool_decide_false by done. rewrite Hconf.
  unfold home_try. cbn [user_code].
  rewrite Hcreate, Hchoices, Hparse.
  unfold py_in, py_getitem.
  destruct (d !! py "error") as [x|] eqn:Herr.
  - rewrite bool_decide_true by eauto. cbn [fst snd].
    by destruct (truthy x).
  - rewrite bool_decide_false by (by intros [? ?]). done.
Qed.

(** X11. A request that is not a POST is answered with the initial
    context, whatever it carries, and nothing is sent to the client. *)
Theorem home_not_post (g : globals) (request : http_request) :
  method request <> py "POST" ->
  home json_loads format_exc g request
  = {| ctx := {| user_code := []; ai_result := VNone; error := VNone;
                 debug := VNone |};
       calls := [] |}.
Proof. intros Hmethod. unfold home. by rewrite bool_decide_false. Qed.

(** X12. When the client answers and the normalizer returns a dict for
    the content of the first choice, that dict is [ai_result]; [error]
    is the dict's own [error] when it has one and it is true, and
    [None] otherwise; [debug] stays [None]; one request was sent.  The
    other choices are not looked at. *)
Theorem home_success_context (g : globals) (request : http_request)
  (cl : groq_client) (response : completion) (first : choice)
  (rest : list choice) (d : gmap (list N) value) :
  method request = py "POST" ->
  strip (default [] (POST request !! py "code")) <> [] ->
  key_is_set (GROQ_API_KEY g) = true ->
  client g = Some cl ->
  create cl
    (request_of (prompt_of (strip (default [] (POST request !! py "code")))))
    = Return response ->
  choices response = first :: rest ->
  parse_ai_response json_loads (message_content first) = VDict d ->
  home json_loads format_exc g request
  = {| ctx := {| user_code := strip (default [] (POST request !! py "code"));
                 ai_result := VDict d;
                 error := match d !! py "error" with
                          | Some x => if truthy x then x else VNone
                          | None => VNone
                          end;
                 debug := VNone |};
       calls :=
         [request_of
            (prompt_of (strip (default [] (POST request !! py "code"))))] |}.
Proof.
  intros Hpost Hcode Hkey Hclient. apply home_answered; try done.
  unfold configured. by rewrite Hkey.
Qed.

(** X13. When the client answers without any choice, the subscript
    [choices[0]] raises [IndexError] and the handler of the view
    answers as for a failed call: the message "list index out of
    range" in [error], the trace in [debug], the fallback result. *)
Theorem home_no_choice (g : globals) (request : http_request)
  (cl : groq_client) (response : completion) :
  method request = py "POST" ->
  strip (default [] (POST request !! py "code")) <> [] ->
  key_is_set (GROQ_API_KEY g) = true ->
  client g = Some cl ->
  create cl
    (request_of (prompt_of (strip (default [] (POST request !! py "code")))))
    = Return response ->
  choices response = [] ->
  home json_loads format_exc g request
  = {| ctx := {| user_code := strip (default [] (POST request !! py "code"));
                 ai_result :=
                   error_result (py "API Error: list index out of range")
                     (VStr (py "Unable to get AI response."));
                 error :=
                   VStr (cross_mark :: py " API Error: list index out of range");
                 debug :=
                   VStr (format_exc
                           (Exn IndexError (py "list index out of range"))) |};
       calls :=
         [request_of
            (prompt_of (strip (default [] (POST request !! py "code"))))] |}.
Proof.
  intros Hpost Hcode Hkey Hclient Hcreate Hchoices.
  apply (home_exception_recovered json_loads format_exc g request cl
           (Exn IndexError (py "list index out of range"))); try done.
  - unfold configured. by rewrite Hkey.
  - unfold home_try. cbn [user_code]. by rewrite Hcreate, Hchoices.
Qed.

(** X14. When the content of the first choice is not a string, the
    normalizer's failure dict is the result and its message is the
    [error] of the context; the view does not take this for a failed
    call: there is no trace. *)
Theorem home_content_not_a_string (g : globals) (request : http_request)
  (cl : groq_client) (response : completion) (first : choice)
  (rest : list choice) :
  method request = py "POST" ->
  strip (default [] (POST request !! py "code")) <> [] ->
  key_is_set (GROQ_API_KEY g) = true ->
  client g = Some cl ->
  create cl
    (request_of (prompt_of (strip (default [] (POST request !! py "code")))))
    = Return response ->
  choices response = first :: rest ->
  (forall s : list N, message_content first <> VStr s) ->
  home json_loads format_exc g request
  = {| ctx := {| user_code := strip (default [] (POST request !! py "code"));
                 ai_result :=
                   error_result
                     (py "Unexpected error: '"
                      ++ type_name (message_content first)
                      ++ py "' object has no attribute 'strip'")
                     (message_content first);
                 error :=
                   VStr (py "Unexpected error: '"
                         ++ type_name (message_content first)
                         ++ py "' object has no attribute 'strip'");
                 debug := VNone |};
       calls :=
         [request_of
            (prompt_of (strip (default [] (POST request !! py "code"))))] |}.
Proof.
  intros Hpost Hcode Hkey Hclient Hcreate Hchoices Hnot.
  assert (parse_ai_response json_loads (message_content first)
          = error_result
              (py "Unexpected error: '" ++ type_name (message_content first)
               ++ py "' object has no attribute 'strip'")
              (message_content first)) as Hparse.
  { destruct (message_content first); try reflexivity. by destruct (Hnot s). }
  rewrite (home_answered g request cl response first rest _ Hpost Hcode
             ltac:(unfold configured; by rewrite Hkey) Hcreate Hchoices Hparse).
  reflexivity.
Qed.

(** X15. When the content of the first choice is a text that
    [json.loads] rejects, the message of the normalizer is also the
    [error] of the context, the failure dict is the result, and there
    is no trace: a text that is not JSON is not a failed call. *)
Theorem home_decode_failure_surfaced (g : globals) (request : http_request)
  (cl : groq_client) (response : completion) (first : choice)
  (rest : list choice) (content : list N) (e : exn) :
  method request = py "POST" ->
  strip (default [] (POST request !! py "code")) <> [] ->
  key_is_set (GROQ_API_KEY g) = true ->
  client g = Some cl ->
  create cl
    (request_of (prompt_of (strip (default [] (POST request !! py "code")))))
    = Return response ->
  choices response = first :: rest ->
  message_content first = VStr content ->
  json_loads (remove_code_block (strip content)) = Raise e ->
  is_json_decode_error e = true ->
  home json_loads format_exc g request
  = {| ctx := {| user_code := strip (default [] (POST request !! py "code"));
                 ai_result :=
                   error_result
                     (py "Failed to parse AI response as JSON: " ++ str_e e)
                     (VStr content);
                 error :=
                   VStr (py "Failed to parse AI response as JSON: "
                         ++ str_e e);
                 debug := VNone |};
       calls :=
         [request_of
            (prompt_of (strip (default [] (POST request !! py "code"))))] |}.
Proof.
  intros Hpost Hcode Hkey Hclient Hcreate Hchoices Hcontent Hloads He.
  assert (parse_ai_response json_loads (message_content first)
          = error_result
              (py "Failed to parse AI response as JSON: " ++ str_e e)
              (VStr content)) as Hparse.
  { rewrite Hcontent, (parse_ai_response_raise _ _ _ Hloads). by rewrite He. }
  rewrite (home_answered g request cl response first rest _ Hpost Hcode
             ltac:(unfold configured; by rewrite Hkey) Hcreate Hchoices Hparse).
  reflexivity.
Qed.

(** X16. The view sends at most one request, and sends it exactly when
    the request is a POST, the trimmed code is not empty, the key is
    set and there is a client; the request is the fixed one built from
    the trimmed code. *)
Theorem home_calls (g : globals) (request : http_request) :
  calls (home json_loads format_exc g request)
  = if bool_decide (method request = py "POST")
       && negb (bool_decide
                  (strip (default [] (POST request !! py "code")) = []))
       && key_is_set (GROQ_API_KEY g)
       && bool_decide (is_Some (client g))
    then [request_of
            (prompt_of (strip (default [] (POST request !! py "code"))))]
    else [].
Proof.
  destruct (decide (method request = py "POST")) as [Hpost|Hnot].
  2:{ unfold home. by rewrite (bool_decide_false _ Hnot). }
  rewrite home_post by done. cbv zeta. rewrite (bool_decide_true _ Hpost).
  destruct (bool_decide (strip _ = [])); [done|]. cbn [negb andb].
  unfold configured. destruct (key_is_set _); [|done].
  destruct (client g) as [cl|]; [|done].
  rewrite bool_decide_true by eauto.
  match goal with
  | |- context [home_try json_loads cl ?c] =>
      destruct (home_try_run json_loads cl c) as (Hcalls & _)
  end.
  by destruct (fst (home_try _ _ _)).
Qed.

(** X17. On every path of a POST request the context echoes the code
    as trimmed. *)
Theorem home_echoes_code (g : globals) (request : http_request) :
  method request = py "POST" ->
  user_code (ctx (home json_loads format_exc g request))
  = strip (default [] (POST request !! py "code")).
Proof.
  intros Hpost. rewrite home_post by done. cbv zeta.
  destruct (bool_decide _); [done|].
  destruct (configured g) as [cl|]; [|done].
  match goal with
  | |- context [home_try json_loads cl ?c] =>
      destruct (home_try_run json_loads cl c) as (_ & Huser & _)
  end.
  by destruct (fst (home_try _ _ _)).
Qed.

(** X19. A trace in [debug] comes only from the handler: whenever
    [debug] is set, one request was sent, and [ai_result] and [error]
    are the fallback result and the message of one and the same
    exception. *)
Theorem home_debug_only_from_handler (g : globals) (request : http_request) :
  debug (ctx (home json_loads format_exc g request)) <> VNone ->
  exists e : exn,
    home json_loads format_exc g request
    = {| ctx := {| user_code := strip (default [] (POST request !! py "code"));
                   ai_result := error_result (py "API Error: " ++ str_e e)
                                  (VStr (py "Unable to get AI response."));
                   error := VStr (cross_mark :: py " API Error: " ++ str_e e);
                   debug := VStr (format_exc e) |};
         calls :=
           [request_of
              (prompt_of (strip (default [] (POST request !! py "code"))))] |}.
Proof.
  destruct (decide (method request = py "POST")) as [Hpost|Hnot].
  2:{ unfold home. by rewrite bool_decide_false. }
  destruct (decide (strip (default [] (POST request !! py "code")) = []))
    as [Hblank|Hcode].
  { rewrite home_post by done. cbv zeta. by rewrite bool_decide_true. }
  destruct (configured g) as [cl|] eqn:Hconf.
  2:{ rewrite home_post by done. cbv zeta.
      rewrite bool_decide_false by done. by rewrite Hconf. }
  destruct (fst (home_try json_loads cl
                   {| user_code := strip (default [] (POST request !! py "code"));
                      ai_result := VNone; error := VNone; debug := VNone |}))
    as [e|] eqn:Htry.
  - intros _. exists e. by apply home_exception_recovered with cl.
  - rewrite home_post by done. cbv zeta.
    rewrite bool_decide_false by done. rewrite Hconf, Htry.
    match goal with
    | |- context [home_try json_loads cl ?c] =>
        destruct (home_try_run json_loads cl c) as (_ & _ & Hdebug & _)
    end.
    by rewrite Hdebug.
Qed.

End view_further.


Lemma home_not_post_witness :
  home JSON.loads sample_format_exc
    (with_client (answering_client complete_object))
    {| method := py "GET"; POST := {[ py "code" := py "print(1)" ]} |}
  = {| ctx := {| user_code := []; ai_result := VNone; error := VNone;
                 debug := VNone |};
       calls := [] |}.
Proof.
  apply (home_not_post JSON.loads sample_format_exc
           (with_client (answering_client complete_object))
           {| method := py "GET"; POST := {[ py "code" := py "print(1)" ]} |}).
  vm_compute. discriminate.
Defined.

Lemma home_success_context_witness :
  home JSON.loads sample_format_exc
    (with_client (answering_client object_with_error)) code_request
  = {| ctx := {| user_code := strip (default [] (POST code_request !! py "code"));
                 ai_result :=
                   dict [(py "error", VStr (py "boom"));
                         (py "syntax_errors", VList []);
                         (py "logical_errors", VList []);
                         (py "key_improvements", VList []);
                         (py "fixed_code", VStr []);
                         (py "explanation", VStr [])];
                 error := VStr (py "boom");
                 debug := VNone |};
       calls :=
         [request_of
            (prompt_of (strip (default [] (POST code_request !! py "code"))))] |}.
Proof.
  etransitivity.
  { apply (home_success_context JSON.loads sample_format_exc
           (with_client (answering_client object_with_error)) code_request
           (answering_client object_with_error)
           {| choices := [ {| message_content := VStr object_with_error |} ] |}
           {| message_content := VStr object_with_error |} []
           (list_to_map
              [(py "error", VStr (py "boom"));
               (py "syntax_errors", VList []);
               (py "logical_errors", VList []);
               (py "key_improvements", VList []);
               (py "fixed_code", VStr []);
               (py "explanation", VStr [])])).
    - reflexivity.
    - vm_compute. discriminate.
    - reflexivity.
    - reflexivity.
    - reflexivity.
    - reflexivity.
    - vm_compute. reflexivity. }
  vm_compute. reflexivity.
Defined.

Lemma home_no_choice_witness :
  home JSON.loads sample_format_exc (with_client silent_client) code_request
  = {| ctx := {| user_code := strip (default [] (POST code_request !! py "code"));
                 ai_result :=
                   error_result (py "API Error: list index out of range")
                     (VStr (py "Unable to get AI response."));
                 error :=
                   VStr (cross_mark :: py " API Error: list index out of range");
                 debug :=
                   VStr (sample_format_exc
                           (Exn IndexError (py "list index out of range"))) |};
       calls :=
         [request_of
            (prompt_of (strip (default [] (POST code_request !! py "code"))))] |}.
Proof.
  apply (home_no_choice JSON.loads sample_format_exc
           (with_client silent_client) code_request silent_client
           {| choices := [] |}).
  - reflexivity.
  - vm_compute. discriminate.
  - reflexivity.
  - reflexivity.
  - reflexivity.
  - reflexivity.
Defined.

Lemma home_content_not_a_string_witness :
  home JSON.loads sample_format_exc (with_client contentless_client)
    code_request
  = {| ctx := {| user_code := strip (default [] (POST code_request !! py "code"));
                 ai_result :=
                   error_result
                     (py "Unexpected error: '" ++ type_name VNone
                      ++ py "' object has no attribute 'strip'")
                     VNone;
                 error :=
                   VStr (py "Unexpected error: '" ++ type_name VNone
                         ++ py "' object has no attribute 'strip'");
                 debug := VNone |};
       calls :=
         [request_of
            (prompt_of (strip (default [] (POST code_request !! py "code"))))] |}.
Proof.
  apply (home_content_not_a_string JSON.loads sample_format_exc
           (with_client contentless_client) code_request contentless_client
           {| choices := [ {| message_content := VNone |} ] |}
           {| message_content := VNone |} []).
  - reflexivity.
  - vm_compute. discriminate.
  - reflexivity.
  - reflexivity.
  - reflexivity.
  - reflexivity.
  - intros s. discriminate.
Defined.

Lemma home_decode_failure_surfaced_witness :
  home JSON.loads sample_format_exc
    (with_client (answering_client not_json_padded)) code_request
  = {| ctx := {| user_code := strip (default [] (POST code_request !! py "code"));
                 ai_result :=
                   error_result
                     (py "Failed to parse AI response as JSON: "
                      ++ py "Expecting value: line 1 column 1 (char 0)")
                     (VStr not_json_padded);
                 error :=
                   VStr (py "Failed to parse AI response as JSON: "
                         ++ py "Expecting value: line 1 column 1 (char 0)");
                 debug := VNone |};
       calls :=
         [request_of
            (prompt_of (strip (default [] (POST code_request !! py "code"))))] |}.
Proof.
  apply (home_decode_failure_surfaced JSON.loads sample_format_exc
           (with_client (answering_client not_json_padded)) code_request
           (answering_client not_json_padded)
           {| choices := [ {| message_content := VStr not_json_padded |} ] |}
           {| message_content := VStr not_json_padded |} [] not_json_padded
           (Exn JSONDecodeError
              (py "Expecting value: line 1 column 1 (char 0)"))).
  - reflexivity.
  - vm_compute. discriminate.
  - reflexivity.
  - reflexivity.
  - reflexivity.
  - reflexivity.
  - reflexivity.
  - vm_compute. reflexivity.
  - reflexivity.
Defined.

Lemma home_echoes_code_witness :
  user_code (ctx (home JSON.loads sample_format_exc
                    (with_client failing_client) padded_request))
  = py "x = 1".
Proof.
  etransitivity.
  { apply (home_echoes_code JSON.loads sample_format_exc
             (with_client failing_client) padded_request).
    reflexivity. }
  vm_compute. reflexivity.
Defined.

Lemma home_debug_only_from_handler_witness :
  exists e : exn,
    home JSON.loads sample_format_exc (with_client failing_client) code_request
    = {| ctx := {| user_code :=
                     strip (default [] (POST code_request !! py "code"));
                   ai_result := error_result (py "API Error: " ++ str_e e)
                                  (VStr (py "Unable to get AI response."));
                   error := VStr (cross_mark :: py " API Error: " ++ str_e e);
                   debug := VStr (sample_format_exc e) |};
         calls :=
           [request_of
              (prompt_of
                 (strip (default [] (POST code_request !! py "code"))))] |}.
Proof.
  apply (home_debug_only_from_handler JSON.loads sample_format_exc
           (with_client failing_client) code_request).
  vm_compute. discriminate.
Defined.

(** ** The module as loaded *)

(** X20. With the globals as the module sets them, there is a client
    exactly when the key is set, so the test of the client in [home]
    never decides; and the view sends a request exactly when the
    request is a POST, the trimmed code is not empty and the key is set.
    Without a key, no request of any kind reaches the service. *)
Theorem home_loaded_calls
  (json_loads : list N -> outcome value) (format_exc : exn -> list N)
  (env_key : option (list N)) (Groq : list N -> groq_client)
  (request : http_request) :
  (client (load_module env_key Groq) = None <-> key_is_set env_key = false)
  /\ (calls (home json_loads format_exc (load_module env_key Groq) request)
        <> []
      <-> method request = py "POST"
          /\ strip (default [] (POST request !! py "code")) <> []
          /\ key_is_set env_key = true).
Proof.
  split.
  - destruct env_key as [[|c key]|]; simpl; intuition congruence.
  - rewrite home_calls. cbn [GROQ_API_KEY load_module client].
    destruct (decide (method request = py "POST")) as [Hpost|Hnot].
    2:{ rewrite (bool_decide_false _ Hnot). simpl. intuition congruence. }
    rewrite (bool_decide_true _ Hpost).
    destruct (decide (strip (default [] (POST request !! py "code")) = []))
      as [Hblank|Hcode].
    { rewrite (bool_decide_true _ Hblank). simpl. intuition congruence. }
    rewrite (bool_decide_false _ Hcode).
    destruct env_key as [[|c key]|]; simpl; intuition congruence.
Qed.

(** ** The view [health_check] *)

(** X21. Without a key the probe is not sent, client or no client, and
    the error page says that the key is not configured. *)
Theorem health_check_without_key (key : option (list N))
  (cl : option probe_client) :
  key_is_set key = false ->
  health_check key cl
  = ({| template := py "error.html";
        template_context :=
          {[ py "error" := VStr (py "API Key not configured") ]} |}, []).
Proof. intros Hkey. unfold health_check. by rewrite Hkey. Qed.

Lemma health_check_without_key_witness :
  health_check (Some []) (Some healthy_probe_client)
  = ({| template := py "error.html";
        template_context :=
          {[ py "error" := VStr (py "API Key not configured") ]} |}, []).
Proof.
  apply (health_check_without_key (Some []) (Some healthy_probe_client)).
  reflexivity.
Defined.

(** X22. The health page is rendered exactly when the key is set,
    there is a client and the probe returns; what the probe returns is
    not looked at.  In every case at most one probe is sent, the fixed
    one. *)
Theorem health_check_healthy_iff (key : option (list N))
  (cl : option probe_client) :
  (template (health_check key cl).1 = py "health.html"
   <-> key_is_set key = true
       /\ exists (c : probe_client) (answer : completion),
            cl = Some c /\ probe_create c health_probe = Return answer)
  /\ ((health_check key cl).2 = [] \/ (health_check key cl).2 = [health_probe]).
Proof.
  unfold health_check, probe_call.
  destruct (key_is_set key); simpl.
  2:{ split; [|by left]. split; [discriminate|]. by intros [? _]. }
  destruct cl as [c|]; simpl.
  2:{ split; [|by left]. split; [discriminate|].
      by intros (_ & c & answer & ? & _). }
  destruct (probe_create c health_probe) as [answer|e] eqn:Hprobe; simpl.
  - split; [|by right]. split; [|done]. intros _. split; [done|].
    by exists c, answer.
  - split; [|by right]. split; [discriminate|].
    intros (_ & c' & answer & [= <-] & Hanswer). congruence.
Qed.

(** X23. With the key set, a probe that raises is answered with the
    error page, whose [error] is the description of the exception; one
    probe was sent and nothing is raised to the caller. *)
Theorem health_check_probe_raises (key : option (list N))
  (c : probe_client) (e : exn) :
  key_is_set key = true ->
  probe_create c health_probe = Raise e ->
  health_check key (Some c)
  = ({| template := py "error.html";
        template_context := {[ py "error" := VStr (str_e e) ]} |},
     [health_probe]).
Proof.
  intros Hkey Hprobe. unfold health_check, probe_call.
  by rewrite Hkey, Hprobe.
Qed.

Lemma health_check_probe_raises_witness :
  health_check (Some (py "gsk_test")) (Some failing_probe_client)
  = ({| template := py "error.html";
        template_context := {[ py "error" := VStr (py "Invalid API Key") ]} |},
     [health_probe]).
Proof.
  apply (health_check_probe_raises (Some (py "gsk_test")) failing_probe_client
           (Exn (OtherException (py "AuthenticationError"))
              (py "Invalid API Key"))).
  - reflexivity.
  - reflexivity.
Defined.
